(** * Connection registry and publish/subscribe fan-out

    A shallow embedding of [backend/app/services/websocket_manager.py]
    (class [WebSocketManager]) together with the properties of its registry
    state: the live-connection list, the channel-to-subscribers map and the
    per-connection metadata map. *)

From stdpp Require Import gmap strings list fin_maps.
From Stdlib Require Import ZArith.

Local Open Scope Z_scope.
Local Open Scope string_scope.
Local Open Scope list_scope.

(** ** Python exceptions and fallible primitives *)

(** The exceptions the calls can meet on the inputs of this model: a
    channel name that is a string, a message that is a JSON value, times
    that are numbers. What such inputs exclude is not among them: the
    [TypeError] of [json.dumps] for a message that is not a JSON value or
    of hashing a channel that is not hashable, and the [OverflowError] of
    a maximal age beyond the range of a float. *)
Inductive exn : Type :=
  | ValueError      (* list.remove(x): x not in list *)
  | KeyError        (* d[k] or del d[k]: k not in d *)
  | TransportError. (* raised by websocket.accept(): the handshake fails,
                       or the socket has been accepted before *)

Inductive result (A : Type) : Type :=
  | Ok (a : A)
  | Raise (e : exn).
Arguments Ok {A} a.
Arguments Raise {A} e.

#[global] Instance result_ret : MRet result := λ A a, Ok a.
#[global] Instance result_bind : MBind result := λ A B f m,
  match m with
  | Ok a => f a
  | Raise e => Raise e
  end.

Definition raises {A : Type} (m : result A) : Prop :=
  match m with Ok _ => False | Raise _ => True end.

(** [for x in l: acc = f acc x], stopping at the first exception. *)
Fixpoint foldM {A B : Type} (f : A → B → result A) (acc : A) (l : list B)
  : result A :=
  match l with
  | [] => Ok acc
  | x :: l' => acc' ← f acc x; foldM f acc' l'
  end.

Section Primitives.
Context {K : Type} `{Countable K} {V : Type}.

(** [d[k]] *)
Definition getitem (d : gmap K V) (k : K) : result V :=
  match d !! k with
  | Some v => Ok v
  | None => Raise KeyError
  end.

(** [del d[k]] *)
Definition delitem (d : gmap K V) (k : K) : result (gmap K V) :=
  match d !! k with
  | Some _ => Ok (delete k d)
  | None => Raise KeyError
  end.
End Primitives.

(** [l.remove(x)] without the exception: drops the first occurrence. *)
Fixpoint remove_first (x : nat) (l : list nat) : list nat :=
  match l with
  | [] => []
  | y :: l' => if decide (x = y) then l' else y :: remove_first x l'
  end.

(** [l.remove(x)] *)
Definition list_remove (x : nat) (l : list nat) : result (list nat) :=
  if decide (x ∈ l) then Ok (remove_first x l) else Raise ValueError.

(** ** Data model *)

(** A WebSocket object is hashed and compared by identity. *)
Abbreviation conn := nat.
Abbreviation channel := string.
(** Seconds since the epoch, as returned by [datetime.timestamp()]. *)
Abbreviation time := Z.

(** The dict stored in [connection_metadata[websocket]]. *)
Record conn_meta : Type := ConnMeta {
  connected_at : time;
  md_subscriptions : gset channel;
  last_ping : time
}.

Record WebSocketManager : Type := Manager {
  active_connections : list conn;
  subscriptions : gmap channel (gset conn);
  connection_metadata : gmap conn conn_meta
}.

(** [WebSocketManager.__init__] *)
Definition init : WebSocketManager :=
  {| active_connections := [];
     subscriptions := ∅;
     connection_metadata := ∅ |}.

(** JSON values carried by the outbound dicts. *)
#[warnings="-register-all"]
Inductive json : Type :=
  | JStr (s : string)
  | JNum (n : Z)
  | JObj (fields : list (string * json)).

Abbreviation message := (list (string * json)).

(** What the manager asks of the transport, in call order. *)
Inductive event : Type :=
  | Accept (ws : conn)
  | SendText (ws : conn) (frame : string) (delivered : bool)
  | Close (ws : conn) (closed : bool).

(** ** Registry operations *)

(** The body shared by [disconnect] and [unsubscribe]:
<<
    if channel in self.subscriptions:
        self.subscriptions[channel].discard(websocket)
        if not self.subscriptions[channel]:
            del self.subscriptions[channel]
>> *)
Definition discard_subscriber (ws : conn) (subs : gmap channel (gset conn))
    (ch : channel) : result (gmap channel (gset conn)) :=
  if decide (ch ∈ dom subs) then
    members ← getitem subs ch;
    let subs1 := <[ch := members ∖ {[ws]}]> subs in
    members1 ← getitem subs1 ch;
    if decide (members1 = ∅) then delitem subs1 ch else Ok subs1
  else Ok subs.

(** [WebSocketManager.disconnect] *)
Definition disconnect (s : WebSocketManager) (ws : conn)
  : result WebSocketManager :=
  act ← (if decide (ws ∈ active_connections s)
         then list_remove ws (active_connections s)
         else Ok (active_connections s));
  subs ← (if decide (ws ∈ dom (connection_metadata s)) then
            md ← getitem (connection_metadata s) ws;
            foldM (discard_subscriber ws) (subscriptions s)
                  (elements (md_subscriptions md))
          else Ok (subscriptions s));
  meta ← (if decide (ws ∈ dom (connection_metadata s))
          then delitem (connection_metadata s) ws
          else Ok (connection_metadata s));
  Ok {| active_connections := act;
        subscriptions := subs;
        connection_metadata := meta |}.

Definition set_subscriptions (md : conn_meta) (chs : gset channel) : conn_meta :=
  {| connected_at := connected_at md;
     md_subscriptions := chs;
     last_ping := last_ping md |}.

Definition set_last_ping (md : conn_meta) (t : time) : conn_meta :=
  {| connected_at := connected_at md;
     md_subscriptions := md_subscriptions md;
     last_ping := t |}.

(** [get_connection_stats] returns a dict of this shape. *)
Record conn_detail : Type := ConnDetail {
  d_connected_at : string;
  d_subscriptions : list channel;
  d_last_ping : string
}.

Record stats : Type := Stats {
  total_connections : nat;
  channels : gmap channel nat;
  connection_details : list conn_detail
}.

Section Manager.
(** [json.dumps] and [datetime.isoformat] are library functions. *)
Variable dumps : message → string.
Variable isoformat : time → string.

(** The transport during one call: [up ws] tells whether
    [ws.send_text] returns ([true]) or raises ([false]). *)
Implicit Type up : conn → bool.

(** [WebSocketManager.send_personal_message] *)
Definition send_personal_message (s : WebSocketManager) (ws : conn)
    (msg : message) up : result (WebSocketManager * list event) :=
  if up ws then Ok (s, [SendText ws (dumps msg) true])
  else s' ← disconnect s ws; Ok (s', [SendText ws (dumps msg) false]).

Definition welcome (now : time) : message :=
  [("type", JStr "connection_established");
   ("message", JStr "Connected to EV Charging Analytics Platform");
   ("timestamp", JStr (isoformat now))].

(** [WebSocketManager.connect]. [accepted] tells whether
    [websocket.accept()] returns or raises; which of the two a socket can
    do is fixed by [accept] below (a socket is accepted at most once).
    The three times are the three readings of [datetime.utcnow()], for
    [connected_at], for [last_ping] and for the welcome frame. *)
Definition connect (s : WebSocketManager) (ws : conn)
    (now_connected now_ping now_welcome : time)
    (accepted : bool) up : result (WebSocketManager * list event) :=
  if accepted then
    let s1 :=
      {| active_connections := active_connections s ++ [ws];
         subscriptions := subscriptions s;
         connection_metadata :=
           <[ws := {| connected_at := now_connected;
                      md_subscriptions := ∅;
                      last_ping := now_ping |}]> (connection_metadata s) |} in
    '(s2, tr) ← send_personal_message s1 ws (welcome now_welcome) up;
    Ok (s2, Accept ws :: tr)
  else Raise TransportError.

Definition subscription_confirmed (ch : channel) (now : time) : message :=
  [("type", JStr "subscription_confirmed");
   ("channel", JStr ch);
   ("message", JStr ("Subscribed to " ++ ch)%string);
   ("timestamp", JStr (isoformat now))].

(** [WebSocketManager.subscribe] *)
Definition subscribe (s : WebSocketManager) (ws : conn) (ch : channel)
    (now : time) up : result (WebSocketManager * list event) :=
  let subs0 :=
    if decide (ch ∉ dom (subscriptions s))
    then <[ch := ∅]> (subscriptions s)
    else subscriptions s in
  members ← getitem subs0 ch;
  let subs1 := <[ch := members ∪ {[ws]}]> subs0 in
  meta1 ← (if decide (ws ∈ dom (connection_metadata s)) then
             md ← getitem (connection_metadata s) ws;
             Ok (<[ws := set_subscriptions md (md_subscriptions md ∪ {[ch]})]>
                   (connection_metadata s))
           else Ok (connection_metadata s));
  send_personal_message
    {| active_connections := active_connections s;
       subscriptions := subs1;
       connection_metadata := meta1 |}
    ws (subscription_confirmed ch now) up.

Definition unsubscription_confirmed (ch : channel) (now : time) : message :=
  [("type", JStr "unsubscription_confirmed");
   ("channel", JStr ch);
   ("message", JStr ("Unsubscribed from " ++ ch)%string);
   ("timestamp", JStr (isoformat now))].

(** [WebSocketManager.unsubscribe] *)
Definition unsubscribe (s : WebSocketManager) (ws : conn) (ch : channel)
    (now : time) up : result (WebSocketManager * list event) :=
  subs1 ← discard_subscriber ws (subscriptions s) ch;
  meta1 ← (if decide (ws ∈ dom (connection_metadata s)) then
             md ← getitem (connection_metadata s) ws;
             Ok (<[ws := set_subscriptions md (md_subscriptions md ∖ {[ch]})]>
                   (connection_metadata s))
           else Ok (connection_metadata s));
  send_personal_message
    {| active_connections := active_connections s;
       subscriptions := subs1;
       connection_metadata := meta1 |}
    ws (unsubscription_confirmed ch now) up.

(** The send loop of [broadcast] and [broadcast_to_channel]:
<<
  for connection in conns:
      try:
          await connection.send_text(message_str)
      except Exception as e:
          disconnected.append(connection)
>>
    It yields the transport events and the list [disconnected]. *)
Fixpoint send_each (frame : string) up (conns : list conn)
  : list event * list conn :=
  match conns with
  | [] => ([], [])
  | c :: rest =>
      let '(tr, disconnected) := send_each frame up rest in
      if up c then (SendText c frame true :: tr, disconnected)
      else (SendText c frame false :: tr, c :: disconnected)
  end.

(** [for connection in disconnected: self.disconnect(connection)] *)
Definition disconnect_all (s : WebSocketManager) (disconnected : list conn)
  : result WebSocketManager :=
  foldM disconnect s disconnected.

(** [WebSocketManager.broadcast] *)
Definition broadcast (s : WebSocketManager) (msg : message) up
  : result (WebSocketManager * list event) :=
  if decide (active_connections s = []) then Ok (s, [])
  else
    let '(tr, disconnected) :=
      send_each (dumps msg) up (active_connections s) in
    s' ← disconnect_all s disconnected;
    Ok (s', tr).

(** [WebSocketManager.broadcast_to_channel] *)
Definition broadcast_to_channel (s : WebSocketManager) (ch : channel)
    (msg : message) up : result (WebSocketManager * list event) :=
  if decide (ch ∉ dom (subscriptions s)) then Ok (s, [])
  else
    members ← getitem (subscriptions s) ch;
    let '(tr, disconnected) :=
      send_each (dumps msg) up (elements members) in
    s' ← disconnect_all s disconnected;
    Ok (s', tr).

(** [send_realtime_metrics], [send_data_update], [send_model_update] and
    [send_alert] build a dict and hand it to a broadcast. *)
Definition send_realtime_metrics (s : WebSocketManager) (metrics : message)
    (now : time) up : result (WebSocketManager * list event) :=
  broadcast_to_channel s "realtime_metrics"
    [("type", JStr "realtime_metrics");
     ("data", JObj metrics);
     ("timestamp", JStr (isoformat now))] up.

Definition send_data_update (s : WebSocketManager) (update_type : string)
    (data : message) (now : time) up
  : result (WebSocketManager * list event) :=
  broadcast_to_channel s "data_updates"
    [("type", JStr "data_update");
     ("update_type", JStr update_type);
     ("data", JObj data);
     ("timestamp", JStr (isoformat now))] up.

Definition send_model_update (s : WebSocketManager) (model_name status : string)
    (details : option message) (now : time) up
  : result (WebSocketManager * list event) :=
  broadcast_to_channel s "model_updates"
    [("type", JStr "model_update");
     ("model_name", JStr model_name);
     ("status", JStr status);
     ("details", JObj (default [] details));
     ("timestamp", JStr (isoformat now))] up.

Definition send_alert (s : WebSocketManager) (alert_type msg severity : string)
    (now : time) up : result (WebSocketManager * list event) :=
  broadcast s
    [("type", JStr "alert");
     ("alert_type", JStr alert_type);
     ("message", JStr msg);
     ("severity", JStr severity);
     ("timestamp", JStr (isoformat now))] up.

Definition ping_message (now : time) : message :=
  [("type", JStr "ping"); ("timestamp", JStr (isoformat now))].

(** The loop of [ping_connections]; the [last_ping] update sits inside
    the [try], so an exception there would also mark the connection. *)
Fixpoint ping_each (frame : string) (now : time) up (conns : list conn)
    (meta : gmap conn conn_meta)
  : gmap conn conn_meta * list event * list conn :=
  match conns with
  | [] => (meta, [], [])
  | c :: rest =>
      let body :=
        if up c then
          if decide (c ∈ dom meta) then
            md ← getitem meta c;
            Ok (<[c := set_last_ping md now]> meta)
          else Ok meta
        else Raise TransportError in
      match body with
      | Ok meta1 =>
          let '(meta2, tr, disconnected) :=
            ping_each frame now up rest meta1 in
          (meta2, SendText c frame true :: tr, disconnected)
      | Raise _ =>
          let '(meta2, tr, disconnected) :=
            ping_each frame now up rest meta in
          (meta2, SendText c frame (up c) :: tr, c :: disconnected)
      end
  end.

(** [WebSocketManager.ping_connections] *)
Definition ping_connections (s : WebSocketManager) (now : time) up
  : result (WebSocketManager * list event) :=
  let '(meta1, tr, disconnected) :=
    ping_each (dumps (ping_message now)) now up
              (active_connections s) (connection_metadata s) in
  s' ← disconnect_all
         {| active_connections := active_connections s;
            subscriptions := subscriptions s;
            connection_metadata := meta1 |}
         disconnected;
  Ok (s', tr).

(** [WebSocketManager.get_connection_stats] *)
Definition get_connection_stats (s : WebSocketManager)
  : result (stats * WebSocketManager) :=
  let channel_stats := size <$> subscriptions s in
  Ok ({| total_connections := length (active_connections s);
         channels := channel_stats;
         connection_details :=
           (λ md, {| d_connected_at := isoformat (connected_at md);
                     d_subscriptions := elements (md_subscriptions md);
                     d_last_ping := isoformat (last_ping md) |})
             <$> (map_to_list (connection_metadata s)).*2 |},
      s).

(** The first loop of [cleanup_stale_connections]. *)
Definition stale_connections (s : WebSocketManager) (cutoff_time : time)
  : list conn :=
  (filter (λ p, last_ping p.2 < cutoff_time)
          (map_to_list (connection_metadata s))).*1.

(** Its second loop; [closes ws] tells whether [ws.close()] returns. *)
Fixpoint evict_each (closes : conn → bool) (s : WebSocketManager)
    (stale : list conn) : result (WebSocketManager * list event) :=
  match stale with
  | [] => Ok (s, [])
  | c :: rest =>
      s1 ← disconnect s c;
      '(s2, tr) ← evict_each closes s1 rest;
      Ok (s2, Close c (closes c) :: tr)
  end.

(** [WebSocketManager.cleanup_stale_connections] *)
Definition cleanup_stale_connections (s : WebSocketManager) (now : time)
    (max_age_minutes : Z) (closes : conn → bool)
  : result (WebSocketManager * list event) :=
  let cutoff_time := now - max_age_minutes * 60 in
  evict_each closes s (stale_connections s cutoff_time).

End Manager.

(** ** Sequences of calls *)

Inductive op : Type :=
  | Connect (ws : conn) (now_connected now_ping now_welcome : time)
            (accepted : bool) (up : conn → bool)
  | Disconnect (ws : conn)
  | Subscribe (ws : conn) (ch : channel) (now : time) (up : conn → bool)
  | Unsubscribe (ws : conn) (ch : channel) (now : time) (up : conn → bool)
  | Broadcast (msg : message) (up : conn → bool)
  | BroadcastToChannel (ch : channel) (msg : message) (up : conn → bool)
  | PingConnections (now : time) (up : conn → bool)
  | CleanupStale (now : time) (max_age_minutes : Z) (closes : conn → bool)
  | GetStats.

Section Calls.
Variable dumps : message → string.
Variable isoformat : time → string.

Definition step (s : WebSocketManager) (o : op)
  : result (WebSocketManager * list event) :=
  match o with
  | Connect ws t1 t2 t3 accepted up =>
      connect dumps isoformat s ws t1 t2 t3 accepted up
  | Disconnect ws => s' ← disconnect s ws; Ok (s', [])
  | Subscribe ws ch now up => subscribe dumps isoformat s ws ch now up
  | Unsubscribe ws ch now up => unsubscribe dumps isoformat s ws ch now up
  | Broadcast msg up => broadcast dumps s msg up
  | BroadcastToChannel ch msg up => broadcast_to_channel dumps s ch msg up
  | PingConnections now up => ping_connections dumps isoformat s now up
  | CleanupStale now age closes => cleanup_stale_connections s now age closes
  | GetStats => '(_, s') ← get_connection_stats isoformat s; Ok (s', [])
  end.

(** The registry after a call. An exception leaves it as it was: the only
    call that raises is a refused [accept], before anything is stored
    (lemma [step_raises]). *)
Definition after (s : WebSocketManager) (o : op) : WebSocketManager :=
  match step s o with
  | Ok (s', _) => s'
  | Raise _ => s
  end.

Definition run (s : WebSocketManager) (ops : list op) : WebSocketManager :=
  foldl after s ops.
End Calls.

(** ** Registry views and invariants *)

(** The subscriber set of a channel; a channel without an entry has none. *)
Definition subscribers (s : WebSocketManager) (ch : channel) : gset conn :=
  default ∅ (subscriptions s !! ch).

(** The subscription set in a connection's metadata record, if it has one. *)
Definition subscriptions_of (s : WebSocketManager) (ws : conn) : gset channel :=
  from_option md_subscriptions ∅ (connection_metadata s !! ws).

Definition bidirectional (s : WebSocketManager) : Prop :=
  ∀ (ws : conn) (ch : channel),
    ws ∈ subscribers s ch ↔ ch ∈ subscriptions_of s ws.

Definition no_empty_channels (s : WebSocketManager) : Prop :=
  ∀ ch : channel, subscriptions s !! ch ≠ Some ∅.

(** A connection the registry knows nothing about. *)
Definition unregistered (s : WebSocketManager) (ws : conn) : Prop :=
  (ws ∉ active_connections s)
  ∧ connection_metadata s !! ws = None
  ∧ (∀ ch, ws ∉ subscribers s ch).

(** The invariants of the data model. *)
Record well_formed (s : WebSocketManager) : Prop := WellFormed {
  wf_nodup : NoDup (active_connections s);
  wf_live : ∀ ws, ws ∈ active_connections s ↔ is_Some (connection_metadata s !! ws);
  wf_bidirectional : bidirectional s;
  wf_no_empty : no_empty_channels s
}.

(** The callers' obligations: [connect] at most once per live handle, and
    [subscribe] only for a connection that [connect] registered. *)
Definition admissible (s : WebSocketManager) (o : op) : bool :=
  match o with
  | Connect ws _ _ _ _ _ => bool_decide (connection_metadata s !! ws = None)
  | Subscribe ws _ _ _ => bool_decide (is_Some (connection_metadata s !! ws))
  | _ => true
  end.

Section Admissible.
Variable dumps : message → string.
Variable isoformat : time → string.

Fixpoint admissible_run (s : WebSocketManager) (ops : list op) : bool :=
  match ops with
  | [] => true
  | o :: ops' =>
      admissible s o && admissible_run (after dumps isoformat s o) ops'
  end.
End Admissible.

(** ** Closed forms of the state changes *)

(** What [discard_subscriber] leaves behind. *)
Definition discarded (ws : conn) (subs : gmap channel (gset conn))
    (ch : channel) : gmap channel (gset conn) :=
  match subs !! ch with
  | Some members =>
      if decide (members ∖ {[ws]} = ∅) then delete ch subs
      else <[ch := members ∖ {[ws]}]> subs
  | None => subs
  end.

(** What [disconnect] leaves behind. *)
Definition disconnected (s : WebSocketManager) (ws : conn) : WebSocketManager :=
  {| active_connections := remove_first ws (active_connections s);
     subscriptions :=
       match connection_metadata s !! ws with
       | Some md =>
           foldl (discarded ws) (subscriptions s) (elements (md_subscriptions md))
       | None => subscriptions s
       end;
     connection_metadata := delete ws (connection_metadata s) |}.

(** The registry once [send_personal_message] has returned: untouched when
    the frame went out, otherwise with the connection disconnected. *)
Definition delivered (s : WebSocketManager) (ws : conn) (up : conn → bool)
  : WebSocketManager :=
  if up ws then s else disconnected s ws.

(** What [connect] stores before it sends the welcome frame. *)
Definition connected (s : WebSocketManager) (ws : conn)
    (now_connected now_ping : time) : WebSocketManager :=
  {| active_connections := active_connections s ++ [ws];
     subscriptions := subscriptions s;
     connection_metadata :=
       <[ws := {| connected_at := now_connected;
                  md_subscriptions := ∅;
                  last_ping := now_ping |}]>
         (connection_metadata s) |}.

(** What [subscribe] stores before it sends the confirmation. *)
Definition subscribed (s : WebSocketManager) (ws : conn) (ch : channel)
  : WebSocketManager :=
  {| active_connections := active_connections s;
     subscriptions := <[ch := subscribers s ch ∪ {[ws]}]> (subscriptions s);
     connection_metadata :=
       match connection_metadata s !! ws with
       | Some md =>
           <[ws := set_subscriptions md (md_subscriptions md ∪ {[ch]})]>
             (connection_metadata s)
       | None => connection_metadata s
       end |}.

(** What [unsubscribe] stores before it sends the confirmation. *)
Definition unsubscribed (s : WebSocketManager) (ws : conn) (ch : channel)
  : WebSocketManager :=
  {| active_connections := active_connections s;
     subscriptions := discarded ws (subscriptions s) ch;
     connection_metadata :=
       match connection_metadata s !! ws with
       | Some md =>
           <[ws := set_subscriptions md (md_subscriptions md ∖ {[ch]})]>
             (connection_metadata s)
       | None => connection_metadata s
       end |}.

(** The connections a send loop collects in [disconnected]. *)
Definition failed (up : conn → bool) (conns : list conn) : list conn :=
  filter (λ c, up c = false) conns.

(** The transport events of a send loop. *)
Definition attempts (frame : string) (up : conn → bool) (conns : list conn)
  : list event :=
  (λ c, SendText c frame (up c)) <$> conns.

(** The metadata map once the loop of [ping_connections] has run. *)
Definition pinged (now : time) (up : conn → bool) (conns : list conn)
    (meta : gmap conn conn_meta) : gmap conn conn_meta :=
  foldl (λ m c, if up c then alter (λ md, set_last_ping md now) c m else m)
        meta conns.

(** How often a handle is listed. *)
Definition occurrences (ws : conn) (conns : list conn) : nat :=
  length (filter (λ c, c = ws) conns).

(** The connection a transport event is addressed to. *)
Definition recipient (e : event) : conn :=
  match e with
  | Accept ws => ws
  | SendText ws _ _ => ws
  | Close ws _ => ws
  end.

(** ** The background task *)




Section BackgroundTask.
Variable dumps : message → string.
Variable isoformat : time → string.



End BackgroundTask.


(** ** Sessions *)

(** A [subscribe] or [unsubscribe] request of connection [ws] whose
    confirmation goes out. *)
Definition session_request (ws : conn) (o : op) : bool :=
  match o with
  | Subscribe w _ _ up => bool_decide (w = ws) && up ws
  | Unsubscribe w _ _ up => bool_decide (w = ws) && up ws
  | _ => false
  end.

(** ** The sockets behind the handles *)

(** A WebSocket of the framework starts in the state CONNECTING, leaves it
    when [accept()] returns and never comes back to it; [accept()] on a
    socket in any other state raises. [accepted] holds the handles whose
    [accept()] has returned; [handshake] tells whether the client's
    handshake goes through. *)
Definition accept (accepted : gset conn) (ws : conn) (handshake : bool)
  : bool :=
  handshake && bool_decide (ws ∉ accepted).

(** The manager together with the sockets it has been handed. *)
Record server : Type := Server {
  manager : WebSocketManager;
  accepted_sockets : gset conn
}.

(** The process at start-up. *)
Definition boot : server :=
  {| manager := init; accepted_sockets := ∅ |}.

Section Server.
Variable dumps : message → string.
Variable isoformat : time → string.

(** A call as the process runs it: the flag of a [Connect] is the
    handshake's outcome, and [accept] decides what [websocket.accept()]
    does with it. *)
Definition serve_call (v : server) (o : op) : server :=
  match o with
  | Connect ws t1 t2 t3 handshake up =>
      let ok := accept (accepted_sockets v) ws handshake in
      {| manager := after dumps isoformat (manager v) (Connect ws t1 t2 t3 ok up);
         accepted_sockets :=
           if ok then {[ws]} ∪ accepted_sockets v else accepted_sockets v |}
  | _ =>
      {| manager := after dumps isoformat (manager v) o;
         accepted_sockets := accepted_sockets v |}
  end.

Definition serve (v : server) (ops : list op) : server :=
  foldl serve_call v ops.

(** Every [subscribe] of the run is for a connection that has a metadata
    record when the call is made. *)
Fixpoint subscribes_registered (v : server) (ops : list op) : bool :=
  match ops with
  | [] => true
  | o :: ops' =>
      match o with
      | Subscribe ws _ _ _ =>
          bool_decide (is_Some (connection_metadata (manager v) !! ws))
      | _ => true
      end
      && subscribes_registered (serve_call v o) ops'
  end.

End Server.

(** The handles the registry lists are accepted sockets, each listed once. *)
Definition listed (v : server) : Prop :=
  NoDup (active_connections (manager v))
  ∧ ∀ c, c ∈ active_connections (manager v) → c ∈ accepted_sockets v.

(** [a] is [b] with some entries taken out. *)
Definition thinned (a b : list conn) : Prop :=
  (NoDup b → NoDup a) ∧ ∀ c, c ∈ a → c ∈ b.

(** ** Concrete transports, calls and registries *)

(** Stand-ins for the two library functions. *)
Definition no_dumps : message → string := λ _, EmptyString.
Definition no_isoformat : time → string := λ _, EmptyString.

(** A transport on which every send goes through, and one on which none
    does. *)
Definition all_up : conn → bool := λ _, true.
Definition all_down : conn → bool := λ _, false.

(** Two connections, both on channel x, the first also on channel y. *)
Definition two_subscribers : list op :=
  [Connect 1 0 0 0 true all_up; Connect 2 5 5 5 true all_up;
   Subscribe 1 "x" 6 all_up; Subscribe 2 "x" 7 all_up;
   Subscribe 1 "y" 8 all_up; Unsubscribe 2 "y" 9 all_up].

Definition subscribed_pair : WebSocketManager :=
  run no_dumps no_isoformat init two_subscribers.

(** A subscribe request for a handle that was never connected; its socket
    is not accepted, so the confirmation cannot be sent. *)
Definition early_subscribe : list op :=
  [Subscribe 1 "x" 0 all_down].

(** The same handle connected afterwards, at time 0. *)
Definition early_subscribe_then_connect : list op :=
  [Subscribe 1 "x" 0 all_down; Connect 1 0 0 0 true all_up].

(** Two [connect] calls on one handle. *)
Definition connect_again : list op :=
  [Connect 1 0 0 0 true all_up; Connect 1 1 1 1 true all_up].

(** * Properties *)

Lemma foldM_ok {A B : Type} (f : A → B → result A) (g : A → B → A) :
  (∀ a x, f a x = Ok (g a x)) →
  ∀ l a, foldM f a l = Ok (foldl g a l).
Proof.
  intros Hfg l. induction l as [|x l IH]; intros a; simpl; [done|].
  rewrite Hfg. simpl. apply IH.
Qed.

Lemma remove_first_notin (x : nat) (l : list nat) :
  x ∉ l → remove_first x l = l.
Proof.
  induction l as [|y l IH]; simpl; [done|].
  intros Hx. apply not_elem_of_cons in Hx as [Hne Hx].
  rewrite decide_False by done. by rewrite IH.
Qed.

Lemma elem_of_remove_first_ne (x y : nat) (l : list nat) :
  y ≠ x → y ∈ remove_first x l ↔ y ∈ l.
Proof.
  intros Hne. induction l as [|z l IH]; simpl; [done|].
  case_decide as Hxz.
  - subst z. rewrite elem_of_cons. split; [by right | by intros [?|?]].
  - rewrite !elem_of_cons, IH. done.
Qed.

Lemma elem_of_remove_first (x y : nat) (l : list nat) :
  y ∈ remove_first x l → y ∈ l.
Proof.
  induction l as [|z l IH]; simpl; [done|].
  case_decide; rewrite ?elem_of_cons; [by right | intros [?|?]; auto].
Qed.

Lemma NoDup_remove_first (x : nat) (l : list nat) :
  NoDup l → NoDup (remove_first x l) ∧ x ∉ remove_first x l.
Proof.
  induction 1 as [|y l Hy Hl IH]; simpl.
  - split; [constructor | apply not_elem_of_nil].
  - case_decide as Hxy.
    + subst y. done.
    + destruct IH as [IH1 IH2]. split.
      * constructor; [|done]. intros Hin. apply Hy. by apply elem_of_remove_first in Hin.
      * rewrite not_elem_of_cons. done.
Qed.

Lemma remove_first_app_notin (x : nat) (l l' : list nat) :
  x ∉ l → remove_first x (l ++ l') = l ++ remove_first x l'.
Proof.
  induction l as [|y l IH]; simpl; [done|].
  intros Hx. apply not_elem_of_cons in Hx as [Hne Hx].
  rewrite decide_False by done. by rewrite IH.
Qed.


Lemma bind_Ok {A B : Type} (a : A) (f : A → result B) : Ok a ≫= f = f a.
Proof. reflexivity. Qed.

Lemma bind_Raise {A B : Type} (e : exn) (f : A → result B) :
  Raise e ≫= f = Raise e.
Proof. reflexivity. Qed.

(** Evaluate the binds whose first computation has returned. *)
Ltac run_result := repeat (rewrite ?bind_Ok, ?bind_Raise; simpl).

(** *** [discard_subscriber] *)

Lemma discard_subscriber_ok ws (subs : gmap channel (gset conn)) ch :
  discard_subscriber ws subs ch = Ok (discarded ws subs ch).
Proof.
  unfold discard_subscriber, discarded, getitem, delitem.
  case_decide as Hdom.
  - apply elem_of_dom in Hdom as [members Hm]. rewrite Hm. run_result.
    rewrite lookup_insert_eq. run_result.
    case_decide; [|done].
    by rewrite delete_insert_eq.
  - apply not_elem_of_dom in Hdom. by rewrite Hdom.
Qed.

Lemma lookup_discarded ws (subs : gmap channel (gset conn)) ch ch' :
  discarded ws subs ch !! ch' =
    if decide (ch' = ch) then
      members ← subs !! ch;
      if decide (members ∖ {[ws]} = ∅) then None else Some (members ∖ {[ws]})
    else subs !! ch'.
Proof.
  unfold discarded. case_decide as Heq.
  - subst ch'. destruct (subs !! ch) as [members|] eqn:Hm; simpl; [|done].
    case_decide; [apply lookup_delete_eq | apply lookup_insert_eq].
  - destruct (subs !! ch) as [members|] eqn:Hm; [|done].
    case_decide; [by apply lookup_delete_ne | by apply lookup_insert_ne].
Qed.

Lemma default_discarded ws (subs : gmap channel (gset conn)) ch ch' :
  default ∅ (discarded ws subs ch !! ch') =
    if decide (ch' = ch) then default ∅ (subs !! ch) ∖ {[ws]}
    else default ∅ (subs !! ch').
Proof.
  rewrite lookup_discarded. case_decide; [|done].
  destruct (subs !! ch) as [members|]; simpl; [|set_solver].
  case_decide as Hempty; simpl; [by rewrite Hempty | done].
Qed.

Lemma discarded_no_empty ws (subs : gmap channel (gset conn)) ch :
  (∀ ch', subs !! ch' ≠ Some ∅) → ∀ ch', discarded ws subs ch !! ch' ≠ Some ∅.
Proof.
  intros Hne ch'. rewrite lookup_discarded. case_decide; [|done].
  destruct (subs !! ch) as [members|]; simpl; [|done].
  case_decide; [done | congruence].
Qed.

(** The channel just visited is never left with an empty entry. *)
Lemma discarded_no_empty_at ws (subs : gmap channel (gset conn)) ch :
  discarded ws subs ch !! ch ≠ Some ∅.
Proof.
  rewrite lookup_discarded, decide_True by done.
  destruct (subs !! ch) as [members|]; simpl; [|done].
  case_decide; [done | congruence].
Qed.

Lemma discarded_id ws (subs : gmap channel (gset conn)) ch :
  subs !! ch ≠ Some ∅ → ws ∉ default ∅ (subs !! ch) → discarded ws subs ch = subs.
Proof.
  intros Hne Hws. unfold discarded.
  destruct (subs !! ch) as [members|] eqn:Hm; [|done]. simpl in *.
  assert (members ∖ {[ws]} = members) as -> by set_solver.
  rewrite decide_False by congruence. by apply insert_id.
Qed.

Lemma default_foldl_discarded ws l (subs : gmap channel (gset conn)) ch' :
  default ∅ (foldl (discarded ws) subs l !! ch') =
    if decide (ch' ∈ l) then default ∅ (subs !! ch') ∖ {[ws]}
    else default ∅ (subs !! ch').
Proof.
  revert subs. induction l as [|ch l IH]; intros subs; cbn [foldl].
  - rewrite decide_False; [done | apply not_elem_of_nil].
  - rewrite IH, default_discarded.
    destruct (decide (ch' = ch)) as [->|Hne].
    + rewrite (decide_True (P := ch ∈ ch :: l)) by apply list_elem_of_here.
      case_decide; set_solver.
    + destruct (decide (ch' ∈ l)) as [Hin|Hnin].
      * rewrite decide_True; [done | by apply list_elem_of_further].
      * rewrite decide_False; [done|]. rewrite elem_of_cons. tauto.
Qed.

Lemma foldl_discarded_no_empty ws l (subs : gmap channel (gset conn)) :
  (∀ ch', subs !! ch' ≠ Some ∅) →
  ∀ ch', foldl (discarded ws) subs l !! ch' ≠ Some ∅.
Proof.
  revert subs. induction l as [|ch l IH]; intros subs Hne; simpl; [done|].
  apply IH. by apply discarded_no_empty.
Qed.

Lemma foldl_discarded_id ws l (subs : gmap channel (gset conn)) :
  (∀ ch, subs !! ch ≠ Some ∅) →
  (∀ ch, ch ∈ l → ws ∉ default ∅ (subs !! ch)) →
  foldl (discarded ws) subs l = subs.
Proof.
  intros Hne. induction l as [|ch l IH]; intros Hws; simpl; [done|].
  rewrite discarded_id.
  - apply IH. intros ch' Hin. apply Hws. by apply list_elem_of_further.
  - apply Hne.
  - apply Hws, list_elem_of_here.
Qed.

(** *** [disconnect] *)

Lemma disconnect_ok s ws : disconnect s ws = Ok (disconnected s ws).
Proof.
  unfold disconnect, disconnected, list_remove, getitem, delitem.
  destruct s as [act subs meta]; simpl.
  assert ((if decide (ws ∈ act)
           then if decide (ws ∈ act) then Ok (remove_first ws act)
                else Raise ValueError
           else Ok act) = Ok (remove_first ws act)) as ->.
  { case_decide as Hin; [done|]. by rewrite remove_first_notin. }
  run_result. case_decide as Hdom.
  - apply elem_of_dom in Hdom as [md Hmd]. rewrite Hmd. run_result.
    rewrite (foldM_ok _ _ (discard_subscriber_ok ws)). done.
  - apply not_elem_of_dom in Hdom. rewrite Hdom. run_result.
    by rewrite delete_id.
Qed.

Lemma disconnect_total s ws : ¬ raises (disconnect s ws).
Proof. rewrite disconnect_ok. simpl. tauto. Qed.

Lemma subscribers_disconnected s ws ch :
  subscribers (disconnected s ws) ch =
    if decide (ch ∈ subscriptions_of s ws) then subscribers s ch ∖ {[ws]}
    else subscribers s ch.
Proof.
  unfold subscribers, subscriptions_of, disconnected; simpl.
  destruct (connection_metadata s !! ws) as [md|]; simpl.
  - rewrite default_foldl_discarded.
    destruct (decide (ch ∈ md_subscriptions md)) as [Hin|Hnin].
    + rewrite decide_True; [done | by apply elem_of_elements].
    + rewrite decide_False; [done | by rewrite elem_of_elements].
  - rewrite decide_False; [done | apply not_elem_of_empty].
Qed.

Lemma subscriptions_of_disconnected s ws c :
  subscriptions_of (disconnected s ws) c =
    if decide (c = ws) then ∅ else subscriptions_of s c.
Proof.
  unfold subscriptions_of, disconnected; simpl. case_decide as Heq.
  - subst c. by rewrite lookup_delete_eq.
  - by rewrite lookup_delete_ne.
Qed.

Lemma disconnected_no_empty s ws :
  no_empty_channels s → no_empty_channels (disconnected s ws).
Proof.
  unfold no_empty_channels, disconnected; simpl. intros Hne.
  destruct (connection_metadata s !! ws) as [md|]; [|done].
  by apply foldl_discarded_no_empty.
Qed.

Lemma disconnected_bidirectional s ws :
  bidirectional s → bidirectional (disconnected s ws).
Proof.
  intros Hbi c ch.
  rewrite subscribers_disconnected, subscriptions_of_disconnected.
  specialize (Hbi c ch).
  destruct (decide (c = ws)) as [->|Hne].
  - case_decide; set_solver.
  - case_decide; set_solver.
Qed.

(** Under bidirectional consistency [disconnect] purges the connection
    from every channel, not only from those its record names. *)
Lemma disconnected_purged s ws ch :
  bidirectional s → ws ∉ subscribers (disconnected s ws) ch.
Proof.
  intros Hbi. rewrite subscribers_disconnected.
  specialize (Hbi ws ch). case_decide; set_solver.
Qed.

Lemma subscribers_disconnected_ne s ws c ch :
  c ≠ ws → c ∈ subscribers (disconnected s ws) ch ↔ c ∈ subscribers s ch.
Proof.
  intros Hne. rewrite subscribers_disconnected. case_decide; set_solver.
Qed.

Lemma metadata_disconnected s ws c :
  connection_metadata (disconnected s ws) !! c =
    if decide (c = ws) then None else connection_metadata s !! c.
Proof.
  unfold disconnected; simpl. case_decide as Heq.
  - subst c. apply lookup_delete_eq.
  - by apply lookup_delete_ne.
Qed.

Lemma disconnected_well_formed s ws :
  well_formed s → well_formed (disconnected s ws).
Proof.
  intros [Hnd Hlive Hbi Hne]. split.
  - by apply NoDup_remove_first.
  - intros c. rewrite metadata_disconnected. simpl.
    destruct (decide (c = ws)) as [->|Hcw].
    + split; [|by intros [? ?]].
      intros Hin. by apply (NoDup_remove_first ws) in Hnd as [_ Hnin].
    + by rewrite elem_of_remove_first_ne, Hlive.
  - by apply disconnected_bidirectional.
  - by apply disconnected_no_empty.
Qed.

(** A connection with neither a list entry nor a record: nothing to do. *)
Lemma disconnected_id s ws :
  ws ∉ active_connections s → connection_metadata s !! ws = None →
  disconnected s ws = s.
Proof.
  intros Hact Hmeta. destruct s as [act subs meta]; simpl in *.
  unfold disconnected; simpl. rewrite Hmeta.
  by rewrite remove_first_notin, delete_id.
Qed.

Lemma disconnected_idem s ws :
  ws ∉ remove_first ws (active_connections s) →
  disconnected (disconnected s ws) ws = disconnected s ws.
Proof.
  intros Hnin. apply disconnected_id; [done|].
  by rewrite metadata_disconnected, decide_True.
Qed.

Lemma disconnected_maps_id s ws :
  connection_metadata s !! ws = None →
  subscriptions (disconnected s ws) = subscriptions s
  ∧ connection_metadata (disconnected s ws) = connection_metadata s.
Proof.
  intros Hm. unfold disconnected; simpl. rewrite Hm.
  by rewrite delete_id.
Qed.

(** The channel map and the metadata map settle after one [disconnect],
    whatever the list holds. *)
Lemma disconnected_idem_maps s ws :
  subscriptions (disconnected (disconnected s ws) ws)
    = subscriptions (disconnected s ws)
  ∧ connection_metadata (disconnected (disconnected s ws) ws)
    = connection_metadata (disconnected s ws).
Proof.
  apply disconnected_maps_id.
  by rewrite metadata_disconnected, decide_True.
Qed.

(** *** Folding [disconnect] over a list of connections *)

Lemma disconnect_all_ok s l :
  disconnect_all s l = Ok (foldl disconnected s l).
Proof. unfold disconnect_all. apply foldM_ok, disconnect_ok. Qed.

Lemma foldl_disconnected_well_formed l s :
  well_formed s → well_formed (foldl disconnected s l).
Proof.
  revert s. induction l as [|c l IH]; intros s Hwf; simpl; [done|].
  by apply IH, disconnected_well_formed.
Qed.

Lemma foldl_disconnected_no_empty l s :
  no_empty_channels s → no_empty_channels (foldl disconnected s l).
Proof.
  revert s. induction l as [|c l IH]; intros s Hwf; simpl; [done|].
  by apply IH, disconnected_no_empty.
Qed.

Lemma foldl_disconnected_bidirectional l s :
  bidirectional s → bidirectional (foldl disconnected s l).
Proof.
  revert s. induction l as [|c l IH]; intros s Hwf; simpl; [done|].
  by apply IH, disconnected_bidirectional.
Qed.


(** *** Closed forms of the calls *)

Section CallResults.
Variable dumps : message → string.
Variable isoformat : time → string.

Lemma send_personal_message_ok s ws msg up :
  send_personal_message dumps s ws msg up
  = Ok (delivered s ws up, [SendText ws (dumps msg) (up ws)]).
Proof.
  unfold send_personal_message, delivered.
  destruct (up ws); [done|]. by rewrite disconnect_ok.
Qed.

Lemma connect_ok s ws t1 t2 t3 up :
  connect dumps isoformat s ws t1 t2 t3 true up
  = Ok (delivered (connected s ws t1 t2) ws up,
        [Accept ws; SendText ws (dumps (welcome isoformat t3)) (up ws)]).
Proof. unfold connect. by rewrite send_personal_message_ok. Qed.

Lemma connect_refused s ws t1 t2 t3 up :
  connect dumps isoformat s ws t1 t2 t3 false up = Raise TransportError.
Proof. done. Qed.

Lemma subscribe_ok s ws ch now up :
  subscribe dumps isoformat s ws ch now up
  = Ok (delivered (subscribed s ws ch) ws up,
        [SendText ws (dumps (subscription_confirmed isoformat ch now)) (up ws)]).
Proof.
  unfold subscribe, getitem.
  assert ((if decide (ch ∉ dom (subscriptions s))
           then <[ch:=∅]> (subscriptions s) else subscriptions s) !! ch
          = Some (subscribers s ch)) as Hget.
  { unfold subscribers. case_decide as Hdom.
    - apply not_elem_of_dom in Hdom. by rewrite lookup_insert_eq, Hdom.
    - apply elem_of_dom in Hdom as [members Hm]. by rewrite Hm. }
  rewrite Hget. run_result.
  assert (<[ch:=subscribers s ch ∪ {[ws]}]>
            (if decide (ch ∉ dom (subscriptions s))
             then <[ch:=∅]> (subscriptions s) else subscriptions s)
          = <[ch:=subscribers s ch ∪ {[ws]}]> (subscriptions s)) as ->.
  { case_decide; [by rewrite insert_insert_eq | done]. }
  clear Hget. case_decide as Hdom.
  - apply elem_of_dom in Hdom as [md Hmd]. rewrite Hmd. run_result.
    rewrite send_personal_message_ok. unfold subscribed. by rewrite Hmd.
  - apply not_elem_of_dom in Hdom. run_result.
    rewrite send_personal_message_ok. unfold subscribed. by rewrite Hdom.
Qed.

Lemma unsubscribe_ok s ws ch now up :
  unsubscribe dumps isoformat s ws ch now up
  = Ok (delivered (unsubscribed s ws ch) ws up,
        [SendText ws (dumps (unsubscription_confirmed isoformat ch now)) (up ws)]).
Proof.
  unfold unsubscribe, getitem. rewrite discard_subscriber_ok. run_result.
  case_decide as Hdom.
  - apply elem_of_dom in Hdom as [md Hmd]. rewrite Hmd. run_result.
    rewrite send_personal_message_ok. unfold unsubscribed. by rewrite Hmd.
  - apply not_elem_of_dom in Hdom. run_result.
    rewrite send_personal_message_ok. unfold unsubscribed. by rewrite Hdom.
Qed.

Lemma send_each_ok frame up conns :
  send_each frame up conns = (attempts frame up conns, failed up conns).
Proof.
  unfold attempts, failed. induction conns as [|c conns IH]; [done|].
  cbn [send_each]. rewrite IH. rewrite fmap_cons, filter_cons. cbv beta.
  destruct (up c) eqn:Hup.
  - by rewrite decide_False.
  - by rewrite decide_True.
Qed.

Lemma broadcast_ok s msg up :
  broadcast dumps s msg up
  = Ok (foldl disconnected s (failed up (active_connections s)),
        attempts (dumps msg) up (active_connections s)).
Proof.
  unfold broadcast. case_decide as Hnil.
  - by rewrite Hnil.
  - rewrite send_each_ok, disconnect_all_ok. done.
Qed.

Lemma broadcast_to_channel_ok s ch msg up :
  broadcast_to_channel dumps s ch msg up
  = Ok (foldl disconnected s (failed up (elements (subscribers s ch))),
        attempts (dumps msg) up (elements (subscribers s ch))).
Proof.
  unfold broadcast_to_channel, subscribers, getitem. case_decide as Hdom.
  - apply not_elem_of_dom in Hdom. rewrite Hdom. simpl.
    by rewrite elements_empty.
  - apply elem_of_dom in Hdom as [members Hm]. rewrite Hm.
    run_result. rewrite send_each_ok, disconnect_all_ok. reflexivity.
Qed.

Lemma ping_each_ok frame now up conns meta :
  ping_each frame now up conns meta
  = (pinged now up conns meta, attempts frame up conns, failed up conns).
Proof.
  unfold pinged, attempts, failed.
  revert meta. induction conns as [|c conns IH]; intros meta; [done|].
  cbn [ping_each foldl]. rewrite fmap_cons, filter_cons. cbv beta.
  destruct (up c) eqn:Hup.
  - rewrite (decide_False (P := true = false)) by done.
    assert ((if decide (c ∈ dom meta)
             then md ← getitem meta c; Ok (<[c:=set_last_ping md now]> meta)
             else Ok meta)
            = Ok (alter (λ md, set_last_ping md now) c meta)) as ->.
    { unfold getitem. case_decide as Hdom.
      - apply elem_of_dom in Hdom as [md Hmd]. rewrite Hmd. run_result.
        f_equal. apply map_eq. intros c'.
        destruct (decide (c' = c)) as [->|Hne].
        + by rewrite lookup_insert_eq, lookup_alter_eq, Hmd.
        + by rewrite lookup_insert_ne, lookup_alter_ne.
      - apply not_elem_of_dom in Hdom. f_equal. apply map_eq. intros c'.
        destruct (decide (c' = c)) as [->|Hne].
        + by rewrite lookup_alter_eq, Hdom.
        + by rewrite lookup_alter_ne. }
    by rewrite IH.
  - rewrite decide_True by done. by rewrite IH.
Qed.

Lemma ping_connections_ok s now up :
  ping_connections dumps isoformat s now up
  = Ok (foldl disconnected
          {| active_connections := active_connections s;
             subscriptions := subscriptions s;
             connection_metadata :=
               pinged now up (active_connections s) (connection_metadata s) |}
          (failed up (active_connections s)),
        attempts (dumps (ping_message isoformat now)) up (active_connections s)).
Proof.
  unfold ping_connections. by rewrite ping_each_ok, disconnect_all_ok.
Qed.

Lemma evict_each_ok closes stale s :
  evict_each closes s stale
  = Ok (foldl disconnected s stale, (λ c, Close c (closes c)) <$> stale).
Proof.
  revert s. induction stale as [|c stale IH]; intros s; [done|].
  cbn [evict_each foldl]. rewrite disconnect_ok. run_result. by rewrite IH.
Qed.

Lemma cleanup_stale_connections_ok s now age closes :
  cleanup_stale_connections s now age closes
  = Ok (foldl disconnected s (stale_connections s (now - age * 60)),
        (λ c, Close c (closes c)) <$> stale_connections s (now - age * 60)).
Proof. unfold cleanup_stale_connections. apply evict_each_ok. Qed.

(** The registry after each kind of call. *)
Lemma after_eq s o :
  after dumps isoformat s o =
    match o with
    | Connect ws t1 t2 t3 true up => delivered (connected s ws t1 t2) ws up
    | Connect ws t1 t2 t3 false up => s
    | Disconnect ws => disconnected s ws
    | Subscribe ws ch now up => delivered (subscribed s ws ch) ws up
    | Unsubscribe ws ch now up => delivered (unsubscribed s ws ch) ws up
    | Broadcast msg up =>
        foldl disconnected s (failed up (active_connections s))
    | BroadcastToChannel ch msg up =>
        foldl disconnected s (failed up (elements (subscribers s ch)))
    | PingConnections now up =>
        foldl disconnected
          {| active_connections := active_connections s;
             subscriptions := subscriptions s;
             connection_metadata :=
               pinged now up (active_connections s) (connection_metadata s) |}
          (failed up (active_connections s))
    | CleanupStale now age closes =>
        foldl disconnected s (stale_connections s (now - age * 60))
    | GetStats => s
    end.
Proof.
  unfold after, step. destruct o as [ws t1 t2 t3 [] up| | | | | | | |].
  - by rewrite connect_ok.
  - done.
  - by rewrite disconnect_ok.
  - by rewrite subscribe_ok.
  - by rewrite unsubscribe_ok.
  - by rewrite broadcast_ok.
  - by rewrite broadcast_to_channel_ok.
  - by rewrite ping_connections_ok.
  - by rewrite cleanup_stale_connections_ok.
  - done.
Qed.

(** No call raises, a refused [accept] apart. *)
Lemma step_raises s o :
  raises (step dumps isoformat s o)
  ↔ ∃ ws t1 t2 t3 up, o = Connect ws t1 t2 t3 false up.
Proof.
  unfold step. destruct o as [ws t1 t2 t3 [] up| | | | | | | |].
  - rewrite connect_ok. simpl. split; [done|]. by intros (?&?&?&?&?&?).
  - simpl. split; [intros _; by eexists _, _, _, _, _ | done].
  - rewrite disconnect_ok. simpl. split; [done|]. by intros (?&?&?&?&?&?).
  - rewrite subscribe_ok. simpl. split; [done|]. by intros (?&?&?&?&?&?).
  - rewrite unsubscribe_ok. simpl. split; [done|]. by intros (?&?&?&?&?&?).
  - rewrite broadcast_ok. simpl. split; [done|]. by intros (?&?&?&?&?&?).
  - rewrite broadcast_to_channel_ok. simpl. split; [done|]. by intros (?&?&?&?&?&?).
  - rewrite ping_connections_ok. simpl. split; [done|]. by intros (?&?&?&?&?&?).
  - rewrite cleanup_stale_connections_ok. simpl. split; [done|]. by intros (?&?&?&?&?&?).
  - simpl. split; [done|]. by intros (?&?&?&?&?&?).
Qed.

End CallResults.

(** *** What [connect], [subscribe] and [unsubscribe] store *)

Lemma subscribers_subscribed s ws ch ch' :
  subscribers (subscribed s ws ch) ch' =
    if decide (ch' = ch) then subscribers s ch ∪ {[ws]} else subscribers s ch'.
Proof.
  unfold subscribers at 1. unfold subscribed; simpl. case_decide as Heq.
  - subst ch'. by rewrite lookup_insert_eq.
  - by rewrite lookup_insert_ne.
Qed.

Lemma metadata_subscribed s ws ch c :
  connection_metadata (subscribed s ws ch) !! c =
    if decide (c = ws)
    then (λ md, set_subscriptions md (md_subscriptions md ∪ {[ch]}))
           <$> connection_metadata s !! ws
    else connection_metadata s !! c.
Proof.
  unfold subscribed; simpl.
  destruct (connection_metadata s !! ws) as [md|] eqn:Hmd.
  - case_decide as Heq; [subst c; apply lookup_insert_eq|].
    by apply lookup_insert_ne.
  - case_decide as Heq; [by subst c | done].
Qed.

Lemma subscriptions_of_subscribed s ws ch c :
  is_Some (connection_metadata s !! ws) →
  subscriptions_of (subscribed s ws ch) c =
    if decide (c = ws) then subscriptions_of s ws ∪ {[ch]}
    else subscriptions_of s c.
Proof.
  intros [md Hmd]. unfold subscriptions_of. rewrite metadata_subscribed.
  case_decide; [|done]. by rewrite Hmd.
Qed.

Lemma subscribers_unsubscribed s ws ch ch' :
  subscribers (unsubscribed s ws ch) ch' =
    if decide (ch' = ch) then subscribers s ch ∖ {[ws]} else subscribers s ch'.
Proof. unfold subscribers, unsubscribed; simpl. apply default_discarded. Qed.

Lemma metadata_unsubscribed s ws ch c :
  connection_metadata (unsubscribed s ws ch) !! c =
    if decide (c = ws)
    then (λ md, set_subscriptions md (md_subscriptions md ∖ {[ch]}))
           <$> connection_metadata s !! ws
    else connection_metadata s !! c.
Proof.
  unfold unsubscribed; simpl.
  destruct (connection_metadata s !! ws) as [md|] eqn:Hmd.
  - case_decide as Heq; [subst c; apply lookup_insert_eq|].
    by apply lookup_insert_ne.
  - case_decide as Heq; [by subst c | done].
Qed.

Lemma subscriptions_of_unsubscribed s ws ch c :
  subscriptions_of (unsubscribed s ws ch) c =
    if decide (c = ws) then subscriptions_of s ws ∖ {[ch]}
    else subscriptions_of s c.
Proof.
  unfold subscriptions_of. rewrite metadata_unsubscribed.
  case_decide; [|done].
  destruct (connection_metadata s !! ws); simpl; [done | set_solver].
Qed.

Lemma subscriptions_of_connected s ws t1 t2 c :
  subscriptions_of (connected s ws t1 t2) c =
    if decide (c = ws) then ∅ else subscriptions_of s c.
Proof.
  unfold subscriptions_of, connected; simpl. case_decide as Heq.
  - subst c. by rewrite lookup_insert_eq.
  - by rewrite lookup_insert_ne.
Qed.

(** *** The data-model invariants are kept *)

Lemma init_well_formed : well_formed init.
Proof.
  split.
  - constructor.
  - intros ws. unfold init. cbn [active_connections connection_metadata].
    rewrite lookup_empty, elem_of_nil. split; [done | by intros [? ?]].
  - intros ws ch. unfold subscribers, subscriptions_of, init.
    cbn [subscriptions connection_metadata]. rewrite !lookup_empty. done.
  - intros ch. unfold init. cbn [subscriptions]. by rewrite lookup_empty.
Qed.

Lemma connected_well_formed s ws t1 t2 :
  well_formed s → connection_metadata s !! ws = None →
  well_formed (connected s ws t1 t2).
Proof.
  intros [Hnd Hlive Hbi Hne] Hnone.
  assert (ws ∉ active_connections s) as Hnin.
  { rewrite Hlive, Hnone. by intros [? ?]. }
  split.
  - simpl. apply NoDup_app. split; [done|]. split; [|apply NoDup_singleton].
    intros c Hc ->%list_elem_of_singleton. done.
  - intros c. simpl. rewrite elem_of_app, list_elem_of_singleton, Hlive.
    destruct (decide (c = ws)) as [->|Hcw].
    + rewrite lookup_insert_eq. split; [eauto | by right].
    + rewrite lookup_insert_ne by done. split; [by intros [?|?] | by left].
  - intros c ch. rewrite subscriptions_of_connected.
    change (subscribers (connected s ws t1 t2) ch) with (subscribers s ch).
    specialize (Hbi c ch). case_decide as Heq; [|done].
    subst c. unfold subscriptions_of in Hbi. rewrite Hnone in Hbi. done.
  - done.
Qed.

Lemma subscribed_no_empty s ws ch :
  no_empty_channels s → no_empty_channels (subscribed s ws ch).
Proof.
  intros Hne ch'. unfold subscribed; simpl.
  destruct (decide (ch' = ch)) as [->|Hneq].
  - rewrite lookup_insert_eq. intros [= Hempty]. set_solver.
  - by rewrite lookup_insert_ne.
Qed.

Lemma subscribed_well_formed s ws ch :
  well_formed s → is_Some (connection_metadata s !! ws) →
  well_formed (subscribed s ws ch).
Proof.
  intros [Hnd Hlive Hbi Hne] Hsome. split.
  - done.
  - intros c. rewrite metadata_subscribed. simpl. rewrite Hlive.
    case_decide as Heq; [|done]. subst c. by rewrite fmap_is_Some.
  - intros c ch'.
    rewrite subscribers_subscribed, subscriptions_of_subscribed by done.
    specialize (Hbi c ch').
    destruct (decide (ch' = ch)) as [->|Hch], (decide (c = ws)) as [->|Hc];
      set_solver.
  - by apply subscribed_no_empty.
Qed.

Lemma unsubscribed_no_empty s ws ch :
  no_empty_channels s → no_empty_channels (unsubscribed s ws ch).
Proof. intros Hne. unfold no_empty_channels, unsubscribed; simpl. by apply discarded_no_empty. Qed.

Lemma unsubscribed_well_formed s ws ch :
  well_formed s → well_formed (unsubscribed s ws ch).
Proof.
  intros [Hnd Hlive Hbi Hne]. split.
  - done.
  - intros c. rewrite metadata_unsubscribed. simpl. rewrite Hlive.
    case_decide as Heq; [|done]. subst c. by rewrite fmap_is_Some.
  - intros c ch'.
    rewrite subscribers_unsubscribed, subscriptions_of_unsubscribed.
    specialize (Hbi c ch').
    destruct (decide (ch' = ch)) as [->|Hch], (decide (c = ws)) as [->|Hc];
      set_solver.
  - by apply unsubscribed_no_empty.
Qed.

Lemma delivered_well_formed s ws up :
  well_formed s → well_formed (delivered s ws up).
Proof.
  intros Hwf. unfold delivered. destruct (up ws); [done|].
  by apply disconnected_well_formed.
Qed.

Lemma delivered_no_empty s ws up :
  no_empty_channels s → no_empty_channels (delivered s ws up).
Proof.
  intros Hwf. unfold delivered. destruct (up ws); [done|].
  by apply disconnected_no_empty.
Qed.

(** A ping only moves [last_ping]. *)
Lemma pinged_subscriptions now up conns (meta : gmap conn conn_meta) c :
  md_subscriptions <$> pinged now up conns meta !! c
  = md_subscriptions <$> meta !! c.
Proof.
  unfold pinged. revert meta.
  induction conns as [|c' conns IH]; intros meta; [done|].
  cbn [foldl]. rewrite IH. destruct (up c'); [|done].
  destruct (decide (c = c')) as [->|Hne].
  - rewrite lookup_alter_eq. by destruct (meta !! c').
  - by rewrite lookup_alter_ne.
Qed.

Lemma pinged_well_formed s now up conns :
  well_formed s →
  well_formed {| active_connections := active_connections s;
                 subscriptions := subscriptions s;
                 connection_metadata := pinged now up conns (connection_metadata s) |}.
Proof.
  intros [Hnd Hlive Hbi Hne]. split; simpl; [done| | |done].
  - intros c. rewrite Hlive.
    rewrite <-(fmap_is_Some md_subscriptions (pinged _ _ _ _ !! _)).
    by rewrite pinged_subscriptions, fmap_is_Some.
  - intros c ch. specialize (Hbi c ch).
    assert (∀ o : option conn_meta,
              from_option md_subscriptions ∅ o = default ∅ (md_subscriptions <$> o))
      as Hfo by (by intros []).
    unfold subscribers, subscriptions_of in *. cbn [subscriptions connection_metadata].
    rewrite Hfo in *. by rewrite pinged_subscriptions.
Qed.

Section Reachable.
Variable dumps : message → string.
Variable isoformat : time → string.

Lemma after_well_formed s o :
  well_formed s → admissible s o = true →
  well_formed (after dumps isoformat s o).
Proof.
  intros Hwf Hadm. rewrite after_eq.
  destruct o as [ws t1 t2 t3 [] up| | | | | | | |]; simpl in Hadm.
  - apply bool_decide_eq_true in Hadm.
    by apply delivered_well_formed, connected_well_formed.
  - done.
  - by apply disconnected_well_formed.
  - apply bool_decide_eq_true in Hadm.
    by apply delivered_well_formed, subscribed_well_formed.
  - by apply delivered_well_formed, unsubscribed_well_formed.
  - by apply foldl_disconnected_well_formed.
  - by apply foldl_disconnected_well_formed.
  - by apply foldl_disconnected_well_formed, pinged_well_formed.
  - by apply foldl_disconnected_well_formed.
  - done.
Qed.

Lemma run_well_formed ops s :
  well_formed s → admissible_run dumps isoformat s ops = true →
  well_formed (run dumps isoformat s ops).
Proof.
  revert s. induction ops as [|o ops IH]; intros s Hwf Hadm; [done|].
  cbn [admissible_run] in Hadm. apply andb_true_iff in Hadm as [Ho Hops].
  unfold run. cbn [foldl]. apply IH; [|done].
  by apply after_well_formed.
Qed.

(** Eager cleanup needs no obligation on the caller. *)
Lemma after_no_empty s o :
  no_empty_channels s → no_empty_channels (after dumps isoformat s o).
Proof.
  intros Hne. rewrite after_eq.
  destruct o as [ws t1 t2 t3 [] up| | | | | | | |].
  - by apply delivered_no_empty.
  - done.
  - by apply disconnected_no_empty.
  - by apply delivered_no_empty, subscribed_no_empty.
  - by apply delivered_no_empty, unsubscribed_no_empty.
  - by apply foldl_disconnected_no_empty.
  - by apply foldl_disconnected_no_empty.
  - by apply foldl_disconnected_no_empty.
  - by apply foldl_disconnected_no_empty.
  - done.
Qed.

Lemma run_no_empty ops s :
  no_empty_channels s → no_empty_channels (run dumps isoformat s ops).
Proof.
  revert s. induction ops as [|o ops IH]; intros s Hne; [done|].
  unfold run. cbn [foldl]. by apply IH, after_no_empty.
Qed.

End Reachable.

(** * The process and its sockets *)

Lemma thinned_refl a : thinned a a.
Proof. by split. Qed.

Lemma thinned_trans a b c : thinned a b → thinned b c → thinned a c.
Proof. intros [H1 H2] [H3 H4]. split; auto. Qed.

Lemma thinned_remove_first x l : thinned (remove_first x l) l.
Proof.
  split; [intros Hnd; by apply NoDup_remove_first|].
  intros c. apply elem_of_remove_first.
Qed.

Lemma thinned_foldl_disconnected l s :
  thinned (active_connections (foldl disconnected s l)) (active_connections s).
Proof.
  revert s. induction l as [|c l IH]; intros s; [apply thinned_refl|].
  cbn [foldl]. eapply thinned_trans; [apply IH|]. apply thinned_remove_first.
Qed.

Lemma thinned_delivered s ws up :
  thinned (active_connections (delivered s ws up)) (active_connections s).
Proof.
  unfold delivered. destruct (up ws); [apply thinned_refl|].
  apply thinned_remove_first.
Qed.

Lemma listed_boot : listed boot.
Proof. split; [constructor|]. intros c Hc. by apply elem_of_nil in Hc. Qed.

Section Served.
Variable dumps : message → string.
Variable isoformat : time → string.

(** Only a [connect] whose [accept] returned adds to the live list. *)
Lemma after_thinned s o :
  (∀ ws t1 t2 t3 up, o ≠ Connect ws t1 t2 t3 true up) →
  thinned (active_connections (after dumps isoformat s o)) (active_connections s).
Proof.
  intros Hno. rewrite after_eq.
  destruct o as [ws t1 t2 t3 [] up| | | | | | | |].
  - by destruct (Hno ws t1 t2 t3 up).
  - apply thinned_refl.
  - apply thinned_remove_first.
  - apply (thinned_delivered (subscribed _ _ _)).
  - apply (thinned_delivered (unsubscribed _ _ _)).
  - apply thinned_foldl_disconnected.
  - apply thinned_foldl_disconnected.
  - apply (thinned_foldl_disconnected _
             {| active_connections := active_connections s;
                subscriptions := subscriptions s;
                connection_metadata := pinged _ _ _ _ |}).
  - apply thinned_foldl_disconnected.
  - apply thinned_refl.
Qed.

Lemma serve_call_manager v o :
  manager (serve_call dumps isoformat v o)
  = match o with
    | Connect ws t1 t2 t3 handshake up =>
        after dumps isoformat (manager v)
          (Connect ws t1 t2 t3 (accept (accepted_sockets v) ws handshake) up)
    | _ => after dumps isoformat (manager v) o
    end.
Proof. by destruct o. Qed.

Lemma serve_call_accepted v o :
  accepted_sockets (serve_call dumps isoformat v o)
  = match o with
    | Connect ws _ _ _ handshake _ =>
        if accept (accepted_sockets v) ws handshake
        then {[ws]} ∪ accepted_sockets v else accepted_sockets v
    | _ => accepted_sockets v
    end.
Proof. by destruct o. Qed.

Lemma serve_call_listed v o :
  listed v → listed (serve_call dumps isoformat v o).
Proof.
  intros [Hnd Hacc].
  assert (∀ o', (∀ ws t1 t2 t3 up, o' ≠ Connect ws t1 t2 t3 true up) →
            listed {| manager := after dumps isoformat (manager v) o';
                      accepted_sockets := accepted_sockets v |}) as Hthin.
  { intros o' Hno. destruct (after_thinned (manager v) o' Hno) as [H1 H2].
    split; simpl; auto. }
  destruct o as [ws t1 t2 t3 handshake up| | | | | | | |];
    try (apply Hthin; done).
  unfold serve_call, accept.
  destruct handshake; simpl; [|by apply Hthin].
  case_bool_decide as Hfresh; [|by apply Hthin].
  assert (ws ∉ active_connections (manager v)) as Hnin by (intros Hin; auto).
  rewrite after_eq.
  destruct (thinned_delivered (connected (manager v) ws t1 t2) ws up) as [H1 H2].
  split; simpl.
  - apply H1. simpl. apply NoDup_app. split; [done|].
    split; [|apply NoDup_singleton].
    intros c Hc ->%list_elem_of_singleton. done.
  - intros c Hc. apply H2 in Hc. simpl in Hc.
    apply elem_of_app in Hc as [Hc|Hc%list_elem_of_singleton]; set_solver.
Qed.

Lemma serve_listed ops v :
  listed v → listed (serve dumps isoformat v ops).
Proof.
  revert v. induction ops as [|o ops IH]; intros v Hv; [done|].
  unfold serve. cbn [foldl]. by apply IH, serve_call_listed.
Qed.

(** Accepted at most once, a handle has no record when it is accepted, so
    the invariants can only be lost through a [subscribe] for a connection
    without a record. *)
Lemma serve_call_well_formed v o :
  listed v → well_formed (manager v) →
  subscribes_registered dumps isoformat v [o] = true →
  well_formed (manager (serve_call dumps isoformat v o)).
Proof.
  intros [Hnd Hacc] Hwf Hsub. rewrite serve_call_manager.
  cbn [subscribes_registered] in Hsub.
  apply andb_true_iff in Hsub as [Hsub _].
  destruct o as [ws t1 t2 t3 handshake up| |ws ch now up| | | | | |];
    try (by apply after_well_formed).
  destruct (accept (accepted_sockets v) ws handshake) eqn:Hok;
    [|by rewrite after_eq].
  apply after_well_formed; [done|]. simpl. apply bool_decide_eq_true.
  unfold accept in Hok.
  apply andb_true_iff in Hok as [_ Hfresh%bool_decide_eq_true].
  apply eq_None_not_Some. intros Hsome.
  apply (wf_live _ Hwf) in Hsome. auto.
Qed.

Lemma serve_well_formed ops v :
  listed v → well_formed (manager v) →
  subscribes_registered dumps isoformat v ops = true →
  well_formed (manager (serve dumps isoformat v ops)).
Proof.
  revert v. induction ops as [|o ops IH]; intros v Hv Hwf Hsub; [done|].
  cbn [subscribes_registered] in Hsub.
  apply andb_true_iff in Hsub as [Ho Hops].
  unfold serve. cbn [foldl]. apply IH; [by apply serve_call_listed| |done].
  apply serve_call_well_formed; [done|done|].
  cbn [subscribes_registered]. by rewrite Ho.
Qed.

End Served.

(** * The registry invariants *)

Section Invariants.
Variable dumps : message → string.
Variable isoformat : time → string.

(** Under the callers' obligations of [admissible], bidirectional
    consistency holds after every run from the empty registry. *)
Lemma bidirectional_consistency (ops : list op) :
  admissible_run dumps isoformat init ops = true →
  ∀ (ws : conn) (ch : channel),
    ws ∈ subscribers (run dumps isoformat init ops) ch
    ↔ ch ∈ subscriptions_of (run dumps isoformat init ops) ws.
Proof.
  intros Hadm.
  apply (wf_bidirectional (run dumps isoformat init ops)).
  apply run_well_formed; [apply init_well_formed | done].
Qed.

(** X21: bidirectional consistency holds in the running process as long
    as every [subscribe] is for a connection that has a metadata record:
    after any such run from start-up, a connection is in a channel's
    subscriber set iff the channel is in the connection's own subscription
    set. No obligation on [connect] is needed, since a socket is accepted
    at most once. *)
Theorem served_bidirectional (ops : list op) :
  subscribes_registered dumps isoformat boot ops = true →
  ∀ (ws : conn) (ch : channel),
    ws ∈ subscribers (manager (serve dumps isoformat boot ops)) ch
    ↔ ch ∈ subscriptions_of (manager (serve dumps isoformat boot ops)) ws.
Proof.
  intros Hsub. apply wf_bidirectional.
  apply serve_well_formed; [apply listed_boot | apply init_well_formed | done].
Qed.

(** C1 fails through [subscribe]: one [subscribe] for a handle that was
    never connected, on the empty registry, puts the handle into the
    channel's subscriber set while it has no record, whether or not the
    confirmation can be sent; the registry is then not bidirectionally
    consistent. *)
Theorem early_subscribe_breaks_consistency ws ch now up :
  ws ∈ subscribers (manager (serve dumps isoformat boot [Subscribe ws ch now up])) ch
  ∧ (ch ∉ subscriptions_of
            (manager (serve dumps isoformat boot [Subscribe ws ch now up])) ws)
  ∧ ¬ bidirectional (manager (serve dumps isoformat boot [Subscribe ws ch now up])).
Proof.
  assert (manager (serve dumps isoformat boot [Subscribe ws ch now up])
          = subscribed init ws ch) as ->.
  { unfold serve. cbn [foldl]. rewrite serve_call_manager, after_eq.
    unfold delivered. destruct (up ws); [done|].
    apply disconnected_id; [apply not_elem_of_nil|].
    by rewrite metadata_subscribed, decide_True. }
  assert (ws ∈ subscribers (subscribed init ws ch) ch) as Hin.
  { rewrite subscribers_subscribed, decide_True by done. set_solver. }
  assert (ch ∉ subscriptions_of (subscribed init ws ch) ws) as Hnot.
  { unfold subscriptions_of. rewrite metadata_subscribed, decide_True by done.
    unfold init. cbn [connection_metadata]. rewrite lookup_empty. simpl.
    apply not_elem_of_empty. }
  split; [done|]. split; [done|]. intros Hbi. by apply Hnot, Hbi.
Qed.

End Invariants.

Lemma served_bidirectional_witness :
  subscribes_registered no_dumps no_isoformat boot two_subscribers = true
  ∧ ∀ (ws : conn) (ch : channel),
      ws ∈ subscribers (manager (serve no_dumps no_isoformat boot two_subscribers)) ch
      ↔ ch ∈ subscriptions_of
               (manager (serve no_dumps no_isoformat boot two_subscribers)) ws.
Proof.
  split; [vm_compute; reflexivity|].
  apply served_bidirectional. vm_compute; reflexivity.
Defined.

(** * Calls on a connection the registry does not know *)

Lemma manager_eta s :
  {| active_connections := active_connections s;
     subscriptions := subscriptions s;
     connection_metadata := connection_metadata s |} = s.
Proof. by destruct s. Qed.

Lemma delivered_unregistered s ws up :
  unregistered s ws → delivered s ws up = s.
Proof.
  intros (Hact & Hmeta & _). unfold delivered.
  destruct (up ws); [done|]. by apply disconnected_id.
Qed.

Lemma unsubscribed_unregistered s ws ch :
  unregistered s ws → subscriptions s !! ch ≠ Some ∅ →
  unsubscribed s ws ch = s.
Proof.
  intros (Hact & Hmeta & Hsubs) Hne. unfold unsubscribed.
  rewrite Hmeta, discarded_id; [apply manager_eta | done | apply Hsubs].
Qed.

Section Unregistered.
Variable dumps : message → string.
Variable isoformat : time → string.

(** [disconnect] on an unknown connection returns and changes nothing. *)
Lemma disconnect_unregistered s ws :
  unregistered s ws → disconnect s ws = Ok s.
Proof.
  intros (Hact & Hmeta & _). rewrite disconnect_ok. f_equal.
  by apply disconnected_id.
Qed.

(** [unsubscribe] on an unknown connection returns and changes nothing;
    only the confirmation frame is attempted. *)
Lemma unsubscribe_unregistered s ws ch now up :
  unregistered s ws → no_empty_channels s →
  unsubscribe dumps isoformat s ws ch now up
  = Ok (s, [SendText ws (dumps (unsubscription_confirmed isoformat ch now)) (up ws)]).
Proof.
  intros Hun Hne. rewrite unsubscribe_ok.
  rewrite unsubscribed_unregistered by done.
  by rewrite delivered_unregistered.
Qed.

(** C2 fails for [subscribe]: on a connection without a metadata record
    the call still returns, but it has put the handle into the channel's
    subscriber set, where neither a failed confirmation nor a later
    [disconnect] removes it. *)
Theorem subscribe_unregistered_stores s ws ch now up :
  unregistered s ws →
  ∃ s' tr,
    subscribe dumps isoformat s ws ch now up = Ok (s', tr)
    ∧ ws ∈ subscribers s' ch
    ∧ connection_metadata s' !! ws = None
    ∧ s' ≠ s
    ∧ ∃ s'', disconnect s' ws = Ok s'' ∧ ws ∈ subscribers s'' ch.
Proof.
  intros (Hact & Hmeta & Hsubs). rewrite subscribe_ok.
  assert (connection_metadata (subscribed s ws ch) !! ws = None) as Hmeta'.
  { by rewrite metadata_subscribed, decide_True, Hmeta. }
  assert (ws ∈ subscribers (subscribed s ws ch) ch) as Hin.
  { rewrite subscribers_subscribed, decide_True by done. set_solver. }
  assert (disconnected (subscribed s ws ch) ws = subscribed s ws ch) as Hid.
  { by apply disconnected_id. }
  assert (delivered (subscribed s ws ch) ws up = subscribed s ws ch) as ->.
  { unfold delivered. by destruct (up ws). }
  eexists _, _. split; [done|]. split; [done|]. split; [done|]. split.
  - intros Heq. rewrite Heq in Hin. by apply (Hsubs ch).
  - exists (subscribed s ws ch). rewrite disconnect_ok, Hid. done.
Qed.

(** * Eager cleanup of empty channels *)

(** C3: in any registry reached from the empty one, once a [subscribe],
    an [unsubscribe] or a [disconnect] has completed, no channel maps to an
    empty subscriber set. *)
Theorem no_empty_channels_kept (ops : list op) ws ch now up :
  (∃ s' tr,
     subscribe dumps isoformat (run dumps isoformat init ops) ws ch now up
       = Ok (s', tr)
     ∧ no_empty_channels s')
  ∧ (∃ s' tr,
       unsubscribe dumps isoformat (run dumps isoformat init ops) ws ch now up
         = Ok (s', tr)
       ∧ no_empty_channels s')
  ∧ (∃ s',
       disconnect (run dumps isoformat init ops) ws = Ok s'
       ∧ no_empty_channels s').
Proof.
  assert (no_empty_channels (run dumps isoformat init ops)) as Hne.
  { apply run_no_empty, init_well_formed. }
  split; [|split].
  - rewrite subscribe_ok. eexists _, _. split; [done|].
    by apply delivered_no_empty, subscribed_no_empty.
  - rewrite unsubscribe_ok. eexists _, _. split; [done|].
    by apply delivered_no_empty, unsubscribed_no_empty.
  - rewrite disconnect_ok. eexists. split; [done|].
    by apply disconnected_no_empty.
Qed.

End Unregistered.

Lemma unregistered_init ws : unregistered init ws.
Proof.
  split; [apply not_elem_of_nil|]. split; [apply lookup_empty|].
  intros ch. unfold subscribers, init. cbn [subscriptions].
  rewrite lookup_empty. apply not_elem_of_empty.
Qed.

Lemma subscribe_unregistered_stores_witness :
  unregistered init 1%nat
  ∧ ∃ s' tr,
      subscribe no_dumps no_isoformat init 1%nat "x" 0 all_up = Ok (s', tr)
      ∧ 1%nat ∈ subscribers s' "x"
      ∧ connection_metadata s' !! 1%nat = None
      ∧ s' ≠ init
      ∧ ∃ s'', disconnect s' 1%nat = Ok s'' ∧ 1%nat ∈ subscribers s'' "x".
Proof.
  split; [apply unregistered_init|].
  apply subscribe_unregistered_stores, unregistered_init.
Defined.

(** * Disconnecting twice *)

Lemma occurrences_cons ws c conns :
  occurrences ws (c :: conns) =
    if decide (c = ws) then S (occurrences ws conns) else occurrences ws conns.
Proof.
  unfold occurrences. rewrite filter_cons. cbv beta. by case_decide.
Qed.

Lemma occurrences_notin ws conns : ws ∉ conns → occurrences ws conns = 0%nat.
Proof.
  induction conns as [|c conns IH]; [done|].
  intros [Hne Hnin]%not_elem_of_cons. rewrite occurrences_cons.
  rewrite decide_False by done. by apply IH.
Qed.

Lemma occurrences_zero ws conns : occurrences ws conns = 0%nat → ws ∉ conns.
Proof.
  induction conns as [|c conns IH]; [intros _; apply not_elem_of_nil|].
  rewrite occurrences_cons. case_decide as Heq; [done|].
  intros Hocc. apply not_elem_of_cons. split; [done | by apply IH].
Qed.

Lemma occurrences_app ws l1 l2 :
  occurrences ws (l1 ++ l2) = (occurrences ws l1 + occurrences ws l2)%nat.
Proof. unfold occurrences. by rewrite filter_app, length_app. Qed.

Lemma occurrences_remove_first ws conns :
  occurrences ws (remove_first ws conns) = pred (occurrences ws conns).
Proof.
  induction conns as [|c conns IH]; [done|].
  cbn [remove_first]. rewrite occurrences_cons.
  destruct (decide (ws = c)) as [->|Hne].
  - by rewrite decide_True.
  - rewrite occurrences_cons. rewrite !decide_False by congruence. apply IH.
Qed.

Lemma NoDup_occurrences ws conns : NoDup conns → (occurrences ws conns ≤ 1)%nat.
Proof.
  induction 1 as [|c conns Hnin Hnd IH]; [unfold occurrences; simpl; lia|].
  rewrite occurrences_cons. case_decide as Heq; [|done].
  subst c. rewrite occurrences_notin by done. lia.
Qed.

(** A handle listed at most once: a second [disconnect] changes nothing. *)
Lemma disconnect_twice_single_entry s ws :
  (occurrences ws (active_connections s) ≤ 1)%nat →
  ∃ s1, disconnect s ws = Ok s1 ∧ disconnect s1 ws = Ok s1.
Proof.
  intros Hocc. exists (disconnected s ws). rewrite !disconnect_ok.
  split; [done|]. f_equal. apply disconnected_idem.
  apply occurrences_zero. rewrite occurrences_remove_first. lia.
Qed.

(** The two maps settle after one [disconnect] in every registry. *)
Lemma disconnect_twice_maps s ws :
  ∃ s1 s2,
    disconnect s ws = Ok s1 ∧ disconnect s1 ws = Ok s2
    ∧ subscriptions s2 = subscriptions s1
    ∧ connection_metadata s2 = connection_metadata s1.
Proof.
  exists (disconnected s ws), (disconnected (disconnected s ws) ws).
  rewrite !disconnect_ok. split; [done|]. split; [done|].
  apply disconnected_idem_maps.
Qed.

Section DisconnectTwice.
Variable dumps : message → string.
Variable isoformat : time → string.

(** C4: in every registry the process reaches from start-up, by any calls
    and whatever the transport does, and for every connection, a second
    [disconnect] returns and leaves the registry (live list, channel map,
    metadata map) exactly as the first one left it. A socket is accepted
    at most once, so no handle is ever listed twice. *)
Theorem disconnect_idempotent (ops : list op) ws :
  ∃ s1,
    disconnect (manager (serve dumps isoformat boot ops)) ws = Ok s1
    ∧ disconnect s1 ws = Ok s1.
Proof.
  apply disconnect_twice_single_entry, NoDup_occurrences.
  apply (serve_listed dumps isoformat ops boot listed_boot).
Qed.

End DisconnectTwice.

(** * Connecting twice *)

Lemma connected_disconnected s ws t1 t2 :
  ws ∉ active_connections s → connection_metadata s !! ws = None →
  disconnected (connected s ws t1 t2) ws = s.
Proof.
  intros Hact Hmeta. unfold disconnected, connected; simpl.
  rewrite lookup_insert_eq; simpl. rewrite elements_empty; simpl.
  rewrite remove_first_app_notin by done. simpl.
  rewrite decide_True by done. rewrite app_nil_r.
  rewrite delete_insert_eq, delete_id by done. apply manager_eta.
Qed.

Section ConnectTwice.
Variable dumps : message → string.
Variable isoformat : time → string.

(** C9, as amended: [connect] takes effect once per handle. After a
    [connect] whose welcome went out, a second [connect] on the same
    handle raises at [accept()] before anything is stored, whatever the
    handshake and the transport do: the registry is as the first call left
    it, with the handle listed once under the record of the first call. A
    single [disconnect] then removes the handle from the live list and
    deletes its record, and [get_connection_stats] no longer counts it. *)
Theorem connect_twice (ops : list op) ws t1 t2 t3 u1 u2 u3 handshake up1 up2 :
  ws ∉ accepted_sockets (serve dumps isoformat boot ops) →
  up1 ws = true →
  let v := serve dumps isoformat boot ops in
  let v1 := serve_call dumps isoformat v (Connect ws t1 t2 t3 true up1) in
  let v2 := serve_call dumps isoformat v1 (Connect ws u1 u2 u3 handshake up2) in
  connect dumps isoformat (manager v1) ws u1 u2 u3
    (accept (accepted_sockets v1) ws handshake) up2 = Raise TransportError
  ∧ manager v2 = manager v1
  ∧ occurrences ws (active_connections (manager v2)) = 1%nat
  ∧ connection_metadata (manager v2) !! ws
    = Some {| connected_at := t1; md_subscriptions := ∅; last_ping := t2 |}
  ∧ ∃ s3 st,
      disconnect (manager v2) ws = Ok s3
      ∧ (ws ∉ active_connections s3)
      ∧ connection_metadata s3 !! ws = None
      ∧ get_connection_stats isoformat s3 = Ok (st, s3)
      ∧ total_connections st = length (active_connections (manager v)).
Proof.
  intros Hfresh Hup v v1 v2.
  destruct (serve_listed dumps isoformat ops boot listed_boot) as [Hnd Hacc].
  fold v in Hnd, Hacc, Hfresh.
  assert (ws ∉ active_connections (manager v)) as Hnin by auto.
  assert (accept (accepted_sockets v) ws true = true) as Hok.
  { unfold accept. simpl. by apply bool_decide_eq_true. }
  assert (manager v1 = connected (manager v) ws t1 t2) as Hm1.
  { unfold v1. rewrite serve_call_manager, Hok, after_eq.
    unfold delivered. by rewrite Hup. }
  assert (accept (accepted_sockets v1) ws handshake = false) as Hno.
  { unfold v1. rewrite serve_call_accepted, Hok. unfold accept.
    rewrite bool_decide_eq_false_2; [apply andb_false_r|]. set_solver. }
  assert (manager v2 = manager v1) as Hm2.
  { unfold v2. rewrite serve_call_manager, Hno. by rewrite after_eq. }
  rewrite Hno, Hm2, Hm1.
  split; [apply connect_refused|]. split; [done|]. split.
  { simpl. rewrite occurrences_app, occurrences_notin by done.
    rewrite occurrences_cons, decide_True by done. done. }
  split; [simpl; apply lookup_insert_eq|].
  assert (connection_metadata (disconnected (connected (manager v) ws t1 t2) ws) !! ws
          = None) as Hgone.
  { by rewrite metadata_disconnected, decide_True. }
  assert (active_connections (disconnected (connected (manager v) ws t1 t2) ws)
          = active_connections (manager v)) as Hact.
  { simpl. rewrite remove_first_app_notin by done. simpl.
    rewrite decide_True by done. apply app_nil_r. }
  exists (disconnected (connected (manager v) ws t1 t2) ws). eexists.
  rewrite disconnect_ok. split; [done|]. split; [by rewrite Hact|].
  split; [done|]. split; [reflexivity|]. cbn [total_connections].
  by rewrite Hact.
Qed.

(** X23: when the welcome frame cannot be sent, [connect] still returns;
    a handle the registry did not know before the call is then again
    absent from the live list, from every channel and from the metadata
    map, and the registry is as it was before the call. *)
Theorem connect_welcome_fails s ws t1 t2 t3 up :
  unregistered s ws → up ws = false →
  ∃ s' tr,
    connect dumps isoformat s ws t1 t2 t3 true up = Ok (s', tr)
    ∧ tr = [Accept ws; SendText ws (dumps (welcome isoformat t3)) false]
    ∧ (ws ∉ active_connections s')
    ∧ (∀ ch, ws ∉ subscribers s' ch)
    ∧ connection_metadata s' !! ws = None
    ∧ s' = s.
Proof.
  intros (Hact & Hmeta & Hsubs) Hup.
  rewrite connect_ok. unfold delivered. rewrite Hup.
  rewrite connected_disconnected by done.
  eexists _, _. split; [done|]. split; [done|]. done.
Qed.

(** C10 fails for a handle that an earlier [subscribe] left in a channel
    without a record: when the welcome frame cannot be sent, [connect]
    returns, the list entry and the record are gone again, but the handle
    is still in the channel's subscriber set, because the record that
    [disconnect] consults is the fresh one with no subscriptions. *)
Theorem connect_welcome_fails_keeps_orphan s ws ch t1 t2 t3 up :
  ws ∈ subscribers s ch →
  ws ∉ active_connections s →
  connection_metadata s !! ws = None →
  up ws = false →
  ∃ s' tr,
    connect dumps isoformat s ws t1 t2 t3 true up = Ok (s', tr)
    ∧ (ws ∉ active_connections s')
    ∧ connection_metadata s' !! ws = None
    ∧ ws ∈ subscribers s' ch.
Proof.
  intros Hin Hact Hmeta Hup.
  rewrite connect_ok. unfold delivered. rewrite Hup.
  rewrite connected_disconnected by done.
  eexists _, _. split; [done|]. done.
Qed.

End ConnectTwice.

Lemma connect_twice_witness :
  (1%nat ∉ accepted_sockets (serve no_dumps no_isoformat boot []))
  ∧ all_up 1%nat = true
  ∧ let v := serve no_dumps no_isoformat boot [] in
    let v1 := serve_call no_dumps no_isoformat v (Connect 1 0 0 0 true all_up) in
    let v2 := serve_call no_dumps no_isoformat v1 (Connect 1 1 1 1 true all_up) in
    connect no_dumps no_isoformat (manager v1) 1%nat 1 1 1
      (accept (accepted_sockets v1) 1%nat true) all_up = Raise TransportError
    ∧ manager v2 = manager v1
    ∧ occurrences 1%nat (active_connections (manager v2)) = 1%nat
    ∧ connection_metadata (manager v2) !! 1%nat
      = Some {| connected_at := 0; md_subscriptions := ∅; last_ping := 0 |}
    ∧ ∃ s3 st,
        disconnect (manager v2) 1%nat = Ok s3
        ∧ (1%nat ∉ active_connections s3)
        ∧ connection_metadata s3 !! 1%nat = None
        ∧ get_connection_stats no_isoformat s3 = Ok (st, s3)
        ∧ total_connections st = length (active_connections (manager v)).
Proof.
  assert (1%nat ∉ accepted_sockets (serve no_dumps no_isoformat boot []))
    as Hfresh by apply not_elem_of_empty.
  split; [done|]. split; [reflexivity|].
  by apply (connect_twice no_dumps no_isoformat [] 1%nat 0 0 0 1 1 1 true
              all_up all_up).
Defined.

(** C9 as stated fails: after two [connect] calls on one handle the handle
    is listed once, and one [disconnect] removes it from the live list. *)
Lemma connect_twice_counterexample :
  occurrences 1%nat
    (active_connections (manager (serve no_dumps no_isoformat boot connect_again)))
  = 1%nat
  ∧ ∃ s3,
      disconnect (manager (serve no_dumps no_isoformat boot connect_again)) 1%nat
        = Ok s3
      ∧ 1%nat ∉ active_connections s3.
Proof.
  split; [vm_compute; reflexivity|].
  exists (disconnected (manager (serve no_dumps no_isoformat boot connect_again)) 1%nat).
  rewrite disconnect_ok. split; [done|].
  apply (bool_decide_unpack _). vm_compute. exact I.
Qed.

Lemma connect_welcome_fails_witness :
  unregistered subscribed_pair 3%nat ∧ all_down 3%nat = false
  ∧ ∃ s' tr,
      connect no_dumps no_isoformat subscribed_pair 3%nat 10 10 10 true all_down
        = Ok (s', tr)
      ∧ tr = [Accept 3%nat;
              SendText 3%nat (no_dumps (welcome no_isoformat 10)) false]
      ∧ (3%nat ∉ active_connections s')
      ∧ (∀ ch, 3%nat ∉ subscribers s' ch)
      ∧ connection_metadata s' !! 3%nat = None
      ∧ s' = subscribed_pair.
Proof.
  assert (unregistered subscribed_pair 3%nat) as Hun.
  { split; [apply (bool_decide_unpack _); vm_compute; exact I|].
    split; [vm_compute; reflexivity|].
    intros ch Hin.
    assert (well_formed subscribed_pair) as Hwf.
    { apply run_well_formed; [apply init_well_formed | vm_compute; reflexivity]. }
    apply (wf_bidirectional _ Hwf) in Hin. vm_compute in Hin.
    discriminate Hin. }
  split; [done|]. split; [reflexivity|].
  by apply connect_welcome_fails.
Defined.

Lemma connect_welcome_fails_keeps_orphan_witness :
  1%nat ∈ subscribers (manager (serve no_dumps no_isoformat boot early_subscribe)) "x"
  ∧ (1%nat ∉ active_connections
               (manager (serve no_dumps no_isoformat boot early_subscribe)))
  ∧ connection_metadata
      (manager (serve no_dumps no_isoformat boot early_subscribe)) !! 1%nat = None
  ∧ all_down 1%nat = false
  ∧ ∃ s' tr,
      connect no_dumps no_isoformat
        (manager (serve no_dumps no_isoformat boot early_subscribe))
        1%nat 0 0 0 true all_down = Ok (s', tr)
      ∧ (1%nat ∉ active_connections s')
      ∧ connection_metadata s' !! 1%nat = None
      ∧ 1%nat ∈ subscribers s' "x".
Proof.
  assert (1%nat ∈ subscribers
                    (manager (serve no_dumps no_isoformat boot early_subscribe)) "x")
    as Hin by (apply (bool_decide_unpack _); vm_compute; exact I).
  assert (1%nat ∉ active_connections
                    (manager (serve no_dumps no_isoformat boot early_subscribe)))
    as Hact by (apply (bool_decide_unpack _); vm_compute; exact I).
  assert (connection_metadata
            (manager (serve no_dumps no_isoformat boot early_subscribe)) !! 1%nat
          = None) as Hmeta by (vm_compute; reflexivity).
  split; [done|]. split; [done|]. split; [done|]. split; [reflexivity|].
  by apply connect_welcome_fails_keeps_orphan.
Defined.

(** * Broadcasts *)

Lemma active_foldl_disconnected l s :
  active_connections (foldl disconnected s l)
  = foldl (λ act c, remove_first c act) (active_connections s) l.
Proof.
  revert s. induction l as [|c l IH]; intros s; [done|].
  cbn [foldl]. by rewrite IH.
Qed.

Lemma foldl_remove_first_cons (x : conn) l act :
  x ∉ l →
  foldl (λ act c, remove_first c act) (x :: act) l
  = x :: foldl (λ act c, remove_first c act) act l.
Proof.
  revert act. induction l as [|c l IH]; intros act Hx; [done|].
  apply not_elem_of_cons in Hx as [Hne Hx]. cbn [foldl remove_first].
  rewrite decide_False by congruence. by apply IH.
Qed.

(** Removing, one entry per failure, the connections a send loop has
    collected leaves the entries whose send went through. *)
Lemma foldl_remove_first_failed up (act : list conn) :
  foldl (λ act c, remove_first c act) act (failed up act)
  = filter (λ c, up c = true) act.
Proof.
  unfold failed. induction act as [|x act IH]; [done|].
  rewrite !filter_cons. cbv beta. destruct (up x) eqn:Hup.
  - rewrite decide_False, decide_True by done.
    rewrite foldl_remove_first_cons; [by rewrite IH|].
    rewrite list_elem_of_filter. intros [Hx _]. congruence.
  - rewrite decide_True, decide_False by done.
    cbn [foldl remove_first]. by rewrite decide_True.
Qed.

Lemma attempts_elem_of frame up conns c :
  c ∈ conns → SendText c frame (up c) ∈ attempts frame up conns.
Proof.
  intros Hin. unfold attempts. apply list_elem_of_fmap. by exists c.
Qed.

Lemma recipient_attempts frame up conns :
  recipient <$> attempts frame up conns = conns.
Proof.
  unfold attempts. rewrite <-list_fmap_compose.
  induction conns as [|c conns IH]; [done|].
  rewrite fmap_cons. simpl. by rewrite IH.
Qed.

Section Fanout.
Variable dumps : message → string.
Variable isoformat : time → string.

(** C5: [broadcast_to_channel] attempts one send of the serialized payload
    to each connection in the channel's subscriber set and to nobody else;
    for a channel without an entry it sends nothing and leaves the
    registry as it is. *)
Theorem broadcast_to_channel_fan_out s ch msg up :
  ∃ s' tr,
    broadcast_to_channel dumps s ch msg up = Ok (s', tr)
    ∧ tr = (λ c, SendText c (dumps msg) (up c)) <$> elements (subscribers s ch)
    ∧ (∀ c, c ∈ subscribers s ch ↔ ∃ e, e ∈ tr ∧ recipient e = c)
    ∧ (∀ c, c ∈ subscribers s ch → SendText c (dumps msg) (up c) ∈ tr)
    ∧ NoDup (recipient <$> tr)
    ∧ (subscriptions s !! ch = None → s' = s ∧ tr = []).
Proof.
  rewrite broadcast_to_channel_ok. eexists _, _. split; [done|].
  split; [done|]. split; [|split; [|split]].
  - intros c. rewrite <-elem_of_elements.
    rewrite <-(recipient_attempts (dumps msg) up (elements (subscribers s ch))) at 1.
    rewrite list_elem_of_fmap. naive_solver.
  - intros c Hc. apply attempts_elem_of. by apply elem_of_elements.
  - rewrite recipient_attempts. apply NoDup_elements.
  - intros Hnone. unfold subscribers. rewrite Hnone. simpl.
    by rewrite elements_empty.
Qed.

(** C6: [broadcast] attempts a send to every entry of the live list as it
    stood when the call began; a failure for one connection does not keep
    a frame from another; the connections whose send failed are
    disconnected once the loop is over, and are then no longer live. *)
Theorem broadcast_partial_failure s msg up :
  ∃ s' tr,
    broadcast dumps s msg up = Ok (s', tr)
    ∧ tr = (λ c, SendText c (dumps msg) (up c)) <$> active_connections s
    ∧ disconnect_all s (filter (λ c, up c = false) (active_connections s)) = Ok s'
    ∧ active_connections s' = filter (λ c, up c = true) (active_connections s)
    ∧ (∀ a, a ∈ active_connections s → up a = true →
         SendText a (dumps msg) true ∈ tr ∧ a ∈ active_connections s')
    ∧ (∀ b, b ∈ active_connections s → up b = false →
         SendText b (dumps msg) false ∈ tr ∧ b ∉ active_connections s').
Proof.
  rewrite broadcast_ok. eexists _, _. split; [done|]. split; [done|].
  assert (active_connections
            (foldl disconnected s (failed up (active_connections s)))
          = filter (λ c, up c = true) (active_connections s)) as Hact.
  { by rewrite active_foldl_disconnected, foldl_remove_first_failed. }
  split; [apply disconnect_all_ok|]. split; [done|]. split.
  - intros a Ha Hup. split.
    + rewrite <-Hup. by apply attempts_elem_of.
    + rewrite Hact. by apply list_elem_of_filter.
  - intros b Hb Hup. split.
    + rewrite <-Hup. by apply attempts_elem_of.
    + rewrite Hact, list_elem_of_filter. intros [Hup' _]. congruence.
Qed.

End Fanout.

(** * Eviction of stale connections *)

Lemma elem_of_stale_connections s cutoff c :
  c ∈ stale_connections s cutoff
  ↔ ∃ md, connection_metadata s !! c = Some md ∧ last_ping md < cutoff.
Proof.
  unfold stale_connections. rewrite list_elem_of_fmap. split.
  - intros ([c' md] & -> & Hin). apply list_elem_of_filter in Hin as [Hlt Hin].
    apply elem_of_map_to_list in Hin. by exists md.
  - intros (md & Hmd & Hlt). exists (c, md). split; [done|].
    apply list_elem_of_filter. split; [done|]. by apply elem_of_map_to_list.
Qed.

(** Connections outside the list are left alone. *)
Lemma foldl_disconnected_other l s c :
  c ∉ l →
  (c ∈ active_connections (foldl disconnected s l) ↔ c ∈ active_connections s)
  ∧ connection_metadata (foldl disconnected s l) !! c = connection_metadata s !! c
  ∧ (∀ ch, c ∈ subscribers (foldl disconnected s l) ch ↔ c ∈ subscribers s ch).
Proof.
  revert s. induction l as [|c' l IH]; intros s Hnin; [done|].
  apply not_elem_of_cons in Hnin as [Hne Hnin]. cbn [foldl].
  destruct (IH (disconnected s c') Hnin) as (Ha & Hm & Hs).
  split; [|split].
  - rewrite Ha. simpl. by apply elem_of_remove_first_ne.
  - rewrite Hm, metadata_disconnected. by rewrite decide_False.
  - intros ch. rewrite Hs. by apply subscribers_disconnected_ne.
Qed.

(** Connections in the list are gone from the whole registry. *)
Lemma foldl_disconnected_gone l s c :
  well_formed s → c ∈ l →
  (c ∉ active_connections (foldl disconnected s l))
  ∧ connection_metadata (foldl disconnected s l) !! c = None
  ∧ (∀ ch, c ∉ subscribers (foldl disconnected s l) ch).
Proof.
  revert s. induction l as [|c' l IH]; intros s Hwf Hin.
  { by apply elem_of_nil in Hin. }
  cbn [foldl]. destruct (decide (c ∈ l)) as [Hl|Hl].
  - apply IH; [by apply disconnected_well_formed | done].
  - apply elem_of_cons in Hin as [->|Hin]; [|done].
    destruct (foldl_disconnected_other l (disconnected s c') c' Hl)
      as (Ha & Hm & Hs).
    split; [|split].
    + rewrite Ha. simpl. apply NoDup_remove_first, Hwf.
    + rewrite Hm, metadata_disconnected. by rewrite decide_True.
    + intros ch. rewrite Hs. apply disconnected_purged, Hwf.
Qed.

(** X22: in a registry that satisfies the data-model invariants, the sweep
    disconnects every connection whose [last_ping] lies before the cutoff:
    it is gone from the live list, from every channel and from the
    metadata map, no channel is left empty, and a close is attempted whose
    outcome does not matter; the other connections keep their place. *)
Theorem cleanup_evicts_stale s now max_age_minutes closes :
  well_formed s →
  ∃ s' tr,
    cleanup_stale_connections s now max_age_minutes closes = Ok (s', tr)
    ∧ (∀ c md,
         connection_metadata s !! c = Some md →
         last_ping md < now - max_age_minutes * 60 →
         (c ∉ active_connections s')
         ∧ (∀ ch, c ∉ subscribers s' ch)
         ∧ connection_metadata s' !! c = None
         ∧ Close c (closes c) ∈ tr)
    ∧ no_empty_channels s'
    ∧ well_formed s'
    ∧ (∀ c md,
         connection_metadata s !! c = Some md →
         ¬ last_ping md < now - max_age_minutes * 60 →
         c ∈ active_connections s'
         ∧ (∀ ch, c ∈ subscribers s' ch ↔ c ∈ subscribers s ch)
         ∧ connection_metadata s' !! c = Some md
         ∧ c ∉ recipient <$> tr)
    ∧ (∀ closes', ∃ tr',
         cleanup_stale_connections s now max_age_minutes closes' = Ok (s', tr')).
Proof.
  intros Hwf. rewrite cleanup_stale_connections_ok.
  set (cutoff := now - max_age_minutes * 60).
  eexists _, _. split; [done|].
  assert (well_formed (foldl disconnected s (stale_connections s cutoff)))
    as Hwf' by by apply foldl_disconnected_well_formed.
  split; [|split; [apply Hwf'|split; [done|split]]].
  - intros c md Hmd Hlt.
    assert (c ∈ stale_connections s cutoff) as Hin.
    { apply elem_of_stale_connections. by exists md. }
    destruct (foldl_disconnected_gone _ s c Hwf Hin) as (Ha & Hm & Hs).
    split; [done|]. split; [done|]. split; [done|].
    apply list_elem_of_fmap. by exists c.
  - intros c md Hmd Hge.
    assert (c ∉ stale_connections s cutoff) as Hnin.
    { rewrite elem_of_stale_connections. intros (md' & Hmd' & Hlt).
      by simplify_eq. }
    destruct (foldl_disconnected_other _ s c Hnin) as (Ha & Hm & Hs).
    split; [|split; [done|split]].
    + rewrite Ha. apply (wf_live s Hwf). by rewrite Hmd.
    + by rewrite Hm.
    + rewrite <-list_fmap_compose.
      intros (c' & -> & Hin)%list_elem_of_fmap. done.
  - intros closes'. rewrite cleanup_stale_connections_ok. by eexists.
Qed.

(** The record of a connection in the list is deleted, in every registry. *)
Lemma foldl_disconnected_metadata l s c :
  connection_metadata (foldl disconnected s l) !! c =
    if decide (c ∈ l) then None else connection_metadata s !! c.
Proof.
  revert s. induction l as [|c' l IH]; intros s.
  { rewrite decide_False; [done | apply not_elem_of_nil]. }
  cbn [foldl]. rewrite IH, metadata_disconnected.
  destruct (decide (c ∈ l)) as [Hl|Hl].
  - rewrite decide_True; [done | by apply list_elem_of_further].
  - destruct (decide (c = c')) as [->|Hne].
    + rewrite decide_True; [done | apply list_elem_of_here].
    + rewrite decide_False; [done|]. by intros [?|?]%elem_of_cons.
Qed.

(** [disconnect] leaves the channels that the record names: a membership
    that no record names survives every [disconnect]. *)
Lemma foldl_disconnected_orphan l s ws ch :
  ws ∈ subscribers s ch → ch ∉ subscriptions_of s ws →
  ws ∈ subscribers (foldl disconnected s l) ch.
Proof.
  revert s. induction l as [|c' l IH]; intros s Hin Hnot; [done|].
  cbn [foldl]. apply IH.
  - rewrite subscribers_disconnected.
    destruct (decide (ws = c')) as [<-|Hne].
    + by rewrite decide_False.
    + case_decide; set_solver.
  - rewrite subscriptions_of_disconnected. case_decide; [set_solver | done].
Qed.

(** C7 fails for a connection that an earlier [subscribe] put into a
    channel its record does not name (the defect of C2): when its
    [last_ping] lies before the cutoff, the sweep returns, deletes the
    record and attempts the close, but the connection is still in the
    channel's subscriber set afterwards, an orphan entry that no later
    [disconnect] removes. *)
Theorem cleanup_keeps_orphan s ws md ch now max_age_minutes closes :
  connection_metadata s !! ws = Some md →
  last_ping md < now - max_age_minutes * 60 →
  ws ∈ subscribers s ch →
  ch ∉ md_subscriptions md →
  ∃ s' tr,
    cleanup_stale_connections s now max_age_minutes closes = Ok (s', tr)
    ∧ connection_metadata s' !! ws = None
    ∧ Close ws (closes ws) ∈ tr
    ∧ ws ∈ subscribers s' ch
    ∧ ∃ s'', disconnect s' ws = Ok s'' ∧ ws ∈ subscribers s'' ch.
Proof.
  intros Hmd Hlt Hin Hnot. rewrite cleanup_stale_connections_ok.
  set (cutoff := now - max_age_minutes * 60).
  assert (ws ∈ stale_connections s cutoff) as Hstale.
  { apply elem_of_stale_connections. by exists md. }
  assert (ch ∉ subscriptions_of s ws) as Hnot'.
  { unfold subscriptions_of. by rewrite Hmd. }
  eexists _, _. split; [done|]. split; [|split; [|split]].
  - by rewrite foldl_disconnected_metadata, decide_True.
  - apply list_elem_of_fmap. by exists ws.
  - by apply foldl_disconnected_orphan.
  - eexists. rewrite disconnect_ok. split; [done|].
    apply (foldl_disconnected_orphan (stale_connections s cutoff ++ [ws]))
      in Hin; [|done].
    by rewrite foldl_app in Hin.
Qed.

(** * Statistics *)

Section Stats.
Variable dumps : message → string.
Variable isoformat : time → string.

(** C8: [get_connection_stats] returns the length of the live list, the
    size of each channel's subscriber set and one entry of metadata
    (connect time, subscriptions, last ping) per record, and hands back the
    registry it was given. *)
Theorem get_connection_stats_snapshot s :
  ∃ st,
    get_connection_stats isoformat s = Ok (st, s)
    ∧ total_connections st = length (active_connections s)
    ∧ (∀ ch, channels st !! ch = size <$> subscriptions s !! ch)
    ∧ (∀ d, d ∈ connection_details st
            ↔ ∃ ws md,
                connection_metadata s !! ws = Some md
                ∧ d = {| d_connected_at := isoformat (connected_at md);
                         d_subscriptions := elements (md_subscriptions md);
                         d_last_ping := isoformat (last_ping md) |})
    ∧ length (connection_details st) = size (connection_metadata s).
Proof.
  eexists. split; [reflexivity|]. simpl. split; [done|]. split; [|split].
  - intros ch. apply lookup_fmap.
  - intros d. rewrite list_elem_of_fmap. split.
    + intros (md & -> & Hin). apply list_elem_of_fmap in Hin as ([ws md'] & -> & Hin).
      apply elem_of_map_to_list in Hin. by exists ws, md'.
    + intros (ws & md & Hmd & ->). exists md. split; [done|].
      apply list_elem_of_fmap. exists (ws, md). split; [done|].
      by apply elem_of_map_to_list.
  - by rewrite !length_fmap, length_map_to_list.
Qed.

End Stats.

Lemma cleanup_evicts_stale_witness :
  well_formed subscribed_pair
  ∧ ∃ s' tr,
      cleanup_stale_connections subscribed_pair 3603 60 all_down = Ok (s', tr)
      ∧ (∀ c md,
           connection_metadata subscribed_pair !! c = Some md →
           last_ping md < 3603 - 60 * 60 →
           (c ∉ active_connections s')
           ∧ (∀ ch, c ∉ subscribers s' ch)
           ∧ connection_metadata s' !! c = None
           ∧ Close c (all_down c) ∈ tr)
      ∧ no_empty_channels s'
      ∧ well_formed s'
      ∧ (∀ c md,
           connection_metadata subscribed_pair !! c = Some md →
           ¬ last_ping md < 3603 - 60 * 60 →
           c ∈ active_connections s'
           ∧ (∀ ch, c ∈ subscribers s' ch ↔ c ∈ subscribers subscribed_pair ch)
           ∧ connection_metadata s' !! c = Some md
           ∧ c ∉ recipient <$> tr)
      ∧ (∀ closes', ∃ tr',
           cleanup_stale_connections subscribed_pair 3603 60 closes' = Ok (s', tr')).
Proof.
  assert (well_formed subscribed_pair) as Hwf.
  { apply run_well_formed; [apply init_well_formed | vm_compute; reflexivity]. }
  split; [done|]. by apply cleanup_evicts_stale.
Defined.

Lemma cleanup_keeps_orphan_witness :
  connection_metadata
    (manager (serve no_dumps no_isoformat boot early_subscribe_then_connect))
    !! 1%nat
  = Some {| connected_at := 0; md_subscriptions := ∅; last_ping := 0 |}
  ∧ last_ping {| connected_at := 0; md_subscriptions := ∅; last_ping := 0 |}
    < 3601 - 60 * 60
  ∧ 1%nat ∈ subscribers
              (manager (serve no_dumps no_isoformat boot
                          early_subscribe_then_connect)) "x"
  ∧ ("x" ∉ md_subscriptions
             {| connected_at := 0; md_subscriptions := ∅; last_ping := 0 |})
  ∧ ∃ s' tr,
      cleanup_stale_connections
        (manager (serve no_dumps no_isoformat boot early_subscribe_then_connect))
        3601 60 all_down = Ok (s', tr)
      ∧ connection_metadata s' !! 1%nat = None
      ∧ Close 1%nat (all_down 1%nat) ∈ tr
      ∧ 1%nat ∈ subscribers s' "x"
      ∧ ∃ s'', disconnect s' 1%nat = Ok s'' ∧ 1%nat ∈ subscribers s'' "x".
Proof.
  assert (connection_metadata
            (manager (serve no_dumps no_isoformat boot
                        early_subscribe_then_connect)) !! 1%nat
          = Some {| connected_at := 0; md_subscriptions := ∅; last_ping := 0 |})
    as Hmd by (vm_compute; reflexivity).
  assert (1%nat ∈ subscribers
                    (manager (serve no_dumps no_isoformat boot
                                early_subscribe_then_connect)) "x")
    as Hin by (apply (bool_decide_unpack _); vm_compute; exact I).
  split; [done|]. split; [simpl; lia|]. split; [done|].
  split; [apply not_elem_of_empty|].
  apply (cleanup_keeps_orphan _ 1%nat _ "x" 3601 60 all_down Hmd);
    [simpl; lia | done | apply not_elem_of_empty].
Defined.

(** * Further properties of the registry calls *)

Lemma well_formed_subscribed_pair : well_formed subscribed_pair.
Proof.
  apply run_well_formed; [apply init_well_formed | vm_compute; reflexivity].
Qed.

Lemma occurrences_remove_first_ne ws c conns :
  c ≠ ws → occurrences c (remove_first ws conns) = occurrences c conns.
Proof.
  intros Hne. induction conns as [|x conns IH]; [done|].
  cbn [remove_first]. destruct (decide (ws = x)) as [->|Hx].
  - by rewrite occurrences_cons, decide_False.
  - by rewrite !occurrences_cons, IH.
Qed.

Section Errors.
Variable dumps : message → string.
Variable isoformat : time → string.

(** X1: the container accesses of the manager never fail. For the inputs
    of the model (string channel names, JSON messages), in every registry,
    also one that breaks the invariants, no call raises [KeyError] at a
    [d[k]] or [del d[k]] nor [ValueError] at a [list.remove]: each of them
    is guarded by a membership test. *)
Theorem guarded_accesses_never_fail s o :
  step dumps isoformat s o ≠ Raise KeyError
  ∧ step dumps isoformat s o ≠ Raise ValueError.
Proof.
  assert (∀ e, step dumps isoformat s o = Raise e → e = TransportError) as Hall.
  { intros e He.
    assert (raises (step dumps isoformat s o)) as Hr by (by rewrite He).
    apply step_raises in Hr as (ws & t1 & t2 & t3 & up & ->).
    cbn [step] in He. rewrite connect_refused in He. congruence. }
  split; intros He; apply Hall in He; discriminate He.
Qed.

(** X2: from the empty registry, as long as [connect] is only given a
    handle without a record and [subscribe] only one with a record, no
    handle is listed twice and a connection is live exactly when it has a
    metadata record. *)
Theorem live_iff_record (ops : list op) :
  admissible_run dumps isoformat init ops = true →
  NoDup (active_connections (run dumps isoformat init ops))
  ∧ ∀ ws, ws ∈ active_connections (run dumps isoformat init ops)
          ↔ is_Some (connection_metadata (run dumps isoformat init ops) !! ws).
Proof.
  intros Hadm.
  assert (well_formed (run dumps isoformat init ops)) as [Hnd Hlive _ _].
  { apply run_well_formed; [apply init_well_formed | done]. }
  done.
Qed.

End Errors.

Lemma live_iff_record_witness :
  admissible_run no_dumps no_isoformat init two_subscribers = true
  ∧ NoDup (active_connections (run no_dumps no_isoformat init two_subscribers))
  ∧ ∀ ws, ws ∈ active_connections (run no_dumps no_isoformat init two_subscribers)
          ↔ is_Some (connection_metadata
                       (run no_dumps no_isoformat init two_subscribers) !! ws).
Proof.
  split; [vm_compute; reflexivity|].
  apply live_iff_record. vm_compute; reflexivity.
Defined.

(** X3: [disconnect] touches nobody else: another connection keeps its
    entries in the live list, its metadata record and its place in every
    channel. *)
Theorem disconnect_others_untouched s ws c :
  c ≠ ws →
  ∃ s', disconnect s ws = Ok s'
        ∧ occurrences c (active_connections s') = occurrences c (active_connections s)
        ∧ (c ∈ active_connections s' ↔ c ∈ active_connections s)
        ∧ connection_metadata s' !! c = connection_metadata s !! c
        ∧ ∀ ch, c ∈ subscribers s' ch ↔ c ∈ subscribers s ch.
Proof.
  intros Hne. exists (disconnected s ws). rewrite disconnect_ok.
  split; [done|]. split; [|split; [|split]].
  - by apply occurrences_remove_first_ne.
  - by apply elem_of_remove_first_ne.
  - by rewrite metadata_disconnected, decide_False.
  - intros ch. by apply subscribers_disconnected_ne.
Qed.

Lemma disconnect_others_untouched_witness :
  2%nat ≠ 1%nat
  ∧ ∃ s', disconnect subscribed_pair 1%nat = Ok s'
          ∧ occurrences 2 (active_connections s')
            = occurrences 2 (active_connections subscribed_pair)
          ∧ (2%nat ∈ active_connections s' ↔ 2%nat ∈ active_connections subscribed_pair)
          ∧ connection_metadata s' !! 2%nat = connection_metadata subscribed_pair !! 2%nat
          ∧ ∀ ch, 2%nat ∈ subscribers s' ch ↔ 2%nat ∈ subscribers subscribed_pair ch.
Proof.
  split; [lia|]. apply disconnect_others_untouched. lia.
Defined.

(** X4: in a registry that satisfies the data-model invariants,
    [disconnect] removes every trace of the connection (live list, each
    channel, metadata) and the invariants still hold. *)
Theorem disconnect_unregisters s ws :
  well_formed s →
  ∃ s', disconnect s ws = Ok s' ∧ unregistered s' ws ∧ well_formed s'.
Proof.
  intros Hwf. exists (disconnected s ws). rewrite disconnect_ok.
  split; [done|]. split; [|by apply disconnected_well_formed].
  split; [|split].
  - apply NoDup_remove_first, Hwf.
  - by rewrite metadata_disconnected, decide_True.
  - intros ch. apply disconnected_purged, Hwf.
Qed.

Lemma disconnect_unregisters_witness :
  well_formed subscribed_pair
  ∧ ∃ s', disconnect subscribed_pair 1%nat = Ok s'
          ∧ unregistered s' 1%nat ∧ well_formed s'.
Proof.
  split; [apply well_formed_subscribed_pair|].
  apply disconnect_unregisters, well_formed_subscribed_pair.
Defined.

(** * Subscribing and unsubscribing *)

(** A registry that satisfies the invariants is determined by its live
    list and its metadata map. *)
Lemma well_formed_ext a b :
  well_formed a → well_formed b →
  active_connections a = active_connections b →
  connection_metadata a = connection_metadata b →
  a = b.
Proof.
  intros Ha Hb Hact Hmeta.
  assert (subscriptions a = subscriptions b) as Hsubs.
  { apply map_eq. intros ch.
    assert (subscribers a ch = subscribers b ch) as Heq.
    { apply set_eq. intros c.
      rewrite (wf_bidirectional a Ha c ch), (wf_bidirectional b Hb c ch).
      unfold subscriptions_of. by rewrite Hmeta. }
    pose proof (wf_no_empty a Ha ch) as Hna.
    pose proof (wf_no_empty b Hb ch) as Hnb.
    unfold subscribers in Heq.
    destruct (subscriptions a !! ch) as [x|], (subscriptions b !! ch) as [y|];
      simpl in Heq; congruence. }
  destruct a, b; simpl in *. congruence.
Qed.

Lemma set_subscriptions_id md : set_subscriptions md (md_subscriptions md) = md.
Proof. by destruct md. Qed.

Lemma subscribed_idem s ws ch :
  subscribed (subscribed s ws ch) ws ch = subscribed s ws ch.
Proof.
  unfold subscribed at 1. cbn [active_connections].
  rewrite subscribers_subscribed, decide_True by done.
  rewrite metadata_subscribed, decide_True by done.
  unfold subscribed. cbn [active_connections subscriptions connection_metadata].
  f_equal.
  - rewrite insert_insert_eq. f_equal. set_solver.
  - destruct (connection_metadata s !! ws) as [md|] eqn:Hmd; simpl; [|done].
    rewrite insert_insert_eq. f_equal. unfold set_subscriptions; simpl.
    f_equal. set_solver.
Qed.

Lemma unsubscribed_subscribed s ws ch md :
  connection_metadata s !! ws = Some md →
  ch ∉ md_subscriptions md →
  ws ∉ subscribers s ch →
  subscriptions s !! ch ≠ Some ∅ →
  unsubscribed (subscribed s ws ch) ws ch = s.
Proof.
  intros Hmd Hch Hws Hne.
  unfold unsubscribed. rewrite metadata_subscribed, decide_True by done.
  rewrite Hmd. simpl.
  unfold subscribed. cbn [active_connections subscriptions connection_metadata].
  rewrite Hmd.
  assert (discarded ws (<[ch:=subscribers s ch ∪ {[ws]}]> (subscriptions s)) ch
          = subscriptions s) as ->.
  { unfold discarded. rewrite lookup_insert_eq.
    assert ((subscribers s ch ∪ {[ws]}) ∖ {[ws]} = subscribers s ch) as ->
      by set_solver.
    unfold subscribers in *.
    destruct (subscriptions s !! ch) as [members|] eqn:Hm; simpl in *.
    - rewrite decide_False by congruence.
      rewrite insert_insert_eq. by apply insert_id.
    - rewrite decide_True by done. rewrite delete_insert_eq.
      by apply delete_id. }
  rewrite insert_insert_eq.
  assert (set_subscriptions
            (set_subscriptions md (md_subscriptions md ∪ {[ch]}))
            ((md_subscriptions md ∪ {[ch]}) ∖ {[ch]}) = md) as ->.
  { destruct md as [t0 subs0 t1]. unfold set_subscriptions; simpl in *.
    f_equal. set_solver. }
  rewrite insert_id by done. apply manager_eta.
Qed.

Lemma unsubscribed_not_subscribed s ws ch :
  well_formed s → ch ∉ subscriptions_of s ws → unsubscribed s ws ch = s.
Proof.
  intros Hwf Hch.
  assert (ws ∉ subscribers s ch) as Hws.
  { by rewrite (wf_bidirectional s Hwf ws ch). }
  unfold unsubscribed.
  rewrite discarded_id; [|apply (wf_no_empty s Hwf)|done].
  unfold subscriptions_of in Hch.
  destruct (connection_metadata s !! ws) as [md|] eqn:Hmd; simpl in Hch.
  - assert (md_subscriptions md ∖ {[ch]} = md_subscriptions md) as -> by set_solver.
    rewrite set_subscriptions_id, insert_id by done. apply manager_eta.
  - apply manager_eta.
Qed.

Section Subscriptions.
Variable dumps : message → string.
Variable isoformat : time → string.

(** X5: [subscribe] on a connection with a metadata record, when the
    confirmation goes out: the connection is then a subscriber of the
    channel and the channel is in its record; no other connection or
    channel gains or loses a membership, the live list is as before, and
    the one frame sent is the confirmation for that channel. *)
Theorem subscribe_registers s ws ch now up :
  is_Some (connection_metadata s !! ws) → up ws = true →
  ∃ s',
    subscribe dumps isoformat s ws ch now up
      = Ok (s', [SendText ws (dumps (subscription_confirmed isoformat ch now)) true])
    ∧ ws ∈ subscribers s' ch
    ∧ ch ∈ subscriptions_of s' ws
    ∧ (∀ c ch', (c, ch') ≠ (ws, ch) →
         (c ∈ subscribers s' ch' ↔ c ∈ subscribers s ch')
         ∧ (ch' ∈ subscriptions_of s' c ↔ ch' ∈ subscriptions_of s c))
    ∧ active_connections s' = active_connections s
    ∧ (∀ c, connected_at <$> connection_metadata s' !! c
            = connected_at <$> connection_metadata s !! c)
    ∧ (∀ c, last_ping <$> connection_metadata s' !! c
            = last_ping <$> connection_metadata s !! c).
Proof.
  intros Hsome Hup. exists (subscribed s ws ch).
  rewrite subscribe_ok. unfold delivered. rewrite Hup.
  split; [done|]. split; [|split; [|split; [|split; [done|split]]]].
  - rewrite subscribers_subscribed, decide_True by done. set_solver.
  - rewrite subscriptions_of_subscribed, decide_True by done. set_solver.
  - intros c ch' Hne.
    rewrite subscribers_subscribed, subscriptions_of_subscribed by done.
    destruct (decide (ch' = ch)) as [->|Hch], (decide (c = ws)) as [->|Hc];
      try done; set_solver.
  - intros c. rewrite metadata_subscribed. case_decide as Heq; [|done].
    subst c. by destruct (connection_metadata s !! ws).
  - intros c. rewrite metadata_subscribed. case_decide as Heq; [|done].
    subst c. by destruct (connection_metadata s !! ws).
Qed.

(** X6: subscribing again to the same channel changes nothing: with the
    confirmations going out, the registry after two [subscribe] calls is
    the registry after one, in every registry. *)
Theorem subscribe_idempotent s ws ch now1 now2 up :
  up ws = true →
  ∃ s1 tr1 tr2,
    subscribe dumps isoformat s ws ch now1 up = Ok (s1, tr1)
    ∧ subscribe dumps isoformat s1 ws ch now2 up = Ok (s1, tr2).
Proof.
  intros Hup. exists (subscribed s ws ch). eexists _, _.
  rewrite !subscribe_ok. unfold delivered. rewrite Hup.
  split; [done|]. by rewrite subscribed_idem.
Qed.

(** X7: [unsubscribe] undoes [subscribe]: for a connection with a record
    that was not yet subscribed to the channel, in a registry that
    satisfies the invariants and with both confirmations going out, the
    registry after [subscribe] then [unsubscribe] is the one before; a
    channel created by the subscription is deleted again. *)
Theorem subscribe_unsubscribe_roundtrip s ws ch now1 now2 up :
  well_formed s →
  is_Some (connection_metadata s !! ws) →
  ch ∉ subscriptions_of s ws →
  up ws = true →
  ∃ s1 tr1 tr2,
    subscribe dumps isoformat s ws ch now1 up = Ok (s1, tr1)
    ∧ unsubscribe dumps isoformat s1 ws ch now2 up = Ok (s, tr2).
Proof.
  intros Hwf [md Hmd] Hch Hup. exists (subscribed s ws ch). eexists _, _.
  rewrite subscribe_ok, unsubscribe_ok. unfold delivered. rewrite Hup.
  split; [done|].
  rewrite (unsubscribed_subscribed s ws ch md); [done|done| | |].
  - unfold subscriptions_of in Hch. by rewrite Hmd in Hch.
  - by rewrite (wf_bidirectional s Hwf ws ch).
  - apply (wf_no_empty s Hwf).
Qed.

(** X8: [unsubscribe] from a channel the connection is not subscribed to
    leaves the registry as it is (with the invariants holding and the
    confirmation going out); the confirmation is sent all the same. *)
Theorem unsubscribe_not_subscribed s ws ch now up :
  well_formed s → ch ∉ subscriptions_of s ws → up ws = true →
  unsubscribe dumps isoformat s ws ch now up
  = Ok (s, [SendText ws (dumps (unsubscription_confirmed isoformat ch now)) true]).
Proof.
  intros Hwf Hch Hup. rewrite unsubscribe_ok. unfold delivered. rewrite Hup.
  by rewrite unsubscribed_not_subscribed.
Qed.

End Subscriptions.

Lemma subscribe_registers_witness :
  is_Some (connection_metadata subscribed_pair !! 2%nat) ∧ all_up 2%nat = true
  ∧ ∃ s',
      subscribe no_dumps no_isoformat subscribed_pair 2%nat "z" 10 all_up
        = Ok (s', [SendText 2%nat
                     (no_dumps (subscription_confirmed no_isoformat "z" 10)) true])
      ∧ 2%nat ∈ subscribers s' "z"
      ∧ "z" ∈ subscriptions_of s' 2%nat
      ∧ (∀ c ch', (c, ch') ≠ (2%nat, "z") →
           (c ∈ subscribers s' ch' ↔ c ∈ subscribers subscribed_pair ch')
           ∧ (ch' ∈ subscriptions_of s' c ↔ ch' ∈ subscriptions_of subscribed_pair c))
      ∧ active_connections s' = active_connections subscribed_pair
      ∧ (∀ c, connected_at <$> connection_metadata s' !! c
              = connected_at <$> connection_metadata subscribed_pair !! c)
      ∧ (∀ c, last_ping <$> connection_metadata s' !! c
              = last_ping <$> connection_metadata subscribed_pair !! c).
Proof.
  assert (is_Some (connection_metadata subscribed_pair !! 2%nat)) as Hsome.
  { apply (bool_decide_unpack _). vm_compute. exact I. }
  split; [done|]. split; [reflexivity|].
  by apply subscribe_registers.
Defined.

Lemma subscribe_idempotent_witness :
  all_up 1%nat = true
  ∧ ∃ s1 tr1 tr2,
      subscribe no_dumps no_isoformat subscribed_pair 1%nat "x" 10 all_up
        = Ok (s1, tr1)
      ∧ subscribe no_dumps no_isoformat s1 1%nat "x" 11 all_up = Ok (s1, tr2).
Proof.
  split; [reflexivity|]. by apply subscribe_idempotent.
Defined.

Lemma subscribe_unsubscribe_roundtrip_witness :
  well_formed subscribed_pair
  ∧ is_Some (connection_metadata subscribed_pair !! 2%nat)
  ∧ ("z" ∉ subscriptions_of subscribed_pair 2%nat)
  ∧ all_up 2%nat = true
  ∧ ∃ s1 tr1 tr2,
      subscribe no_dumps no_isoformat subscribed_pair 2%nat "z" 10 all_up
        = Ok (s1, tr1)
      ∧ unsubscribe no_dumps no_isoformat s1 2%nat "z" 11 all_up
        = Ok (subscribed_pair, tr2).
Proof.
  assert (is_Some (connection_metadata subscribed_pair !! 2%nat)) as Hsome.
  { apply (bool_decide_unpack _). vm_compute. exact I. }
  assert ("z" ∉ subscriptions_of subscribed_pair 2%nat) as Hz.
  { apply (bool_decide_unpack _). vm_compute. exact I. }
  split; [apply well_formed_subscribed_pair|]. split; [done|].
  split; [done|]. split; [reflexivity|].
  apply subscribe_unsubscribe_roundtrip;
    [apply well_formed_subscribed_pair | done | done | reflexivity].
Defined.

Lemma unsubscribe_not_subscribed_witness :
  well_formed subscribed_pair
  ∧ ("y" ∉ subscriptions_of subscribed_pair 2%nat)
  ∧ all_up 2%nat = true
  ∧ unsubscribe no_dumps no_isoformat subscribed_pair 2%nat "y" 10 all_up
    = Ok (subscribed_pair,
          [SendText 2%nat
             (no_dumps (unsubscription_confirmed no_isoformat "y" 10)) true]).
Proof.
  assert ("y" ∉ subscriptions_of subscribed_pair 2%nat) as Hy.
  { apply (bool_decide_unpack _). vm_compute. exact I. }
  split; [apply well_formed_subscribed_pair|]. split; [done|].
  split; [reflexivity|].
  apply unsubscribe_not_subscribed;
    [apply well_formed_subscribed_pair | done | reflexivity].
Defined.

(** * A whole session *)

Section Session.
Variable dumps : message → string.
Variable isoformat : time → string.

(** While a session is open, the registry satisfies the invariants, the
    handle is the last entry of the live list and has a record, and the
    records of the others are those of the start. *)
Definition in_session (s : WebSocketManager) (ws : conn) (x : WebSocketManager)
  : Prop :=
  well_formed x
  ∧ active_connections x = active_connections s ++ [ws]
  ∧ is_Some (connection_metadata x !! ws)
  ∧ ∀ c, c ≠ ws → connection_metadata x !! c = connection_metadata s !! c.

Lemma in_session_request s ws x o :
  in_session s ws x → session_request ws o = true →
  in_session s ws (after dumps isoformat x o).
Proof.
  intros (Hwf & Hact & Hsome & Hothers) Hreq. rewrite after_eq.
  destruct o as [| |w ch now up|w ch now up| | | | |]; try done;
    simpl in Hreq; apply andb_true_iff in Hreq as [Hw Hup];
    apply bool_decide_eq_true in Hw; subst w;
    unfold delivered; rewrite Hup.
  - split; [by apply subscribed_well_formed|]. split; [done|]. split.
    + rewrite metadata_subscribed, decide_True by done. by apply fmap_is_Some.
    + intros c Hc. rewrite metadata_subscribed, decide_False by done. by apply Hothers.
  - split; [by apply unsubscribed_well_formed|]. split; [done|]. split.
    + rewrite metadata_unsubscribed, decide_True by done. by apply fmap_is_Some.
    + intros c Hc. rewrite metadata_unsubscribed, decide_False by done. by apply Hothers.
Qed.

Lemma in_session_run s ws reqs x :
  in_session s ws x → forallb (session_request ws) reqs = true →
  in_session s ws (run dumps isoformat x reqs).
Proof.
  revert x. induction reqs as [|o reqs IH]; intros x Hx Hreqs; [done|].
  cbn [forallb] in Hreqs. apply andb_true_iff in Hreqs as [Ho Hreqs].
  unfold run. cbn [foldl]. apply IH; [|done]. by apply in_session_request.
Qed.

(** X9: a session leaves no trace. In a registry that satisfies the
    invariants, [connect] of a handle without a record, then any number of
    its own [subscribe] and [unsubscribe] requests, then [disconnect],
    with every frame to the handle going out, gives back exactly the
    registry of the start: no list entry, record, channel membership or
    empty channel is left behind. *)
Theorem session_leaves_no_trace s ws t1 t2 t3 up reqs :
  well_formed s →
  connection_metadata s !! ws = None →
  up ws = true →
  forallb (session_request ws) reqs = true →
  run dumps isoformat s
      (Connect ws t1 t2 t3 true up :: reqs ++ [Disconnect ws]) = s.
Proof.
  intros Hwf Hnone Hup Hreqs.
  assert (ws ∉ active_connections s) as Hnin.
  { rewrite (wf_live s Hwf), Hnone. by intros [? ?]. }
  unfold run. cbn [foldl]. rewrite foldl_app. cbn [foldl].
  fold (run dumps isoformat
          (after dumps isoformat s (Connect ws t1 t2 t3 true up)) reqs).
  assert (in_session s ws (after dumps isoformat s (Connect ws t1 t2 t3 true up)))
    as Hstart.
  { rewrite after_eq. unfold delivered. rewrite Hup.
    split; [by apply connected_well_formed|]. split; [done|]. split.
    - simpl. rewrite lookup_insert_eq. eauto.
    - intros c Hc. simpl. by rewrite lookup_insert_ne. }
  pose proof (in_session_run s ws reqs _ Hstart Hreqs)
    as (Hwf' & Hact & Hsome & Hothers).
  rewrite after_eq.
  apply well_formed_ext; [by apply disconnected_well_formed | done | |].
  - simpl. rewrite Hact, remove_first_app_notin by done. simpl.
    rewrite decide_True by done. apply app_nil_r.
  - apply map_eq. intros c. rewrite metadata_disconnected.
    case_decide as Heq; [by subst c | by apply Hothers].
Qed.

End Session.

Lemma session_leaves_no_trace_witness :
  well_formed subscribed_pair
  ∧ connection_metadata subscribed_pair !! 3%nat = None
  ∧ all_up 3%nat = true
  ∧ forallb (session_request 3)
      [Subscribe 3 "x" 11 all_up; Subscribe 3 "news" 12 all_up;
       Unsubscribe 3 "y" 13 all_up] = true
  ∧ run no_dumps no_isoformat subscribed_pair
        (Connect 3 10 10 10 true all_up
         :: [Subscribe 3 "x" 11 all_up; Subscribe 3 "news" 12 all_up;
             Unsubscribe 3 "y" 13 all_up] ++ [Disconnect 3])
    = subscribed_pair.
Proof.
  split; [apply well_formed_subscribed_pair|].
  split; [vm_compute; reflexivity|]. split; [reflexivity|].
  split; [vm_compute; reflexivity|].
  apply session_leaves_no_trace;
    [apply well_formed_subscribed_pair | vm_compute; reflexivity
    | reflexivity | vm_compute; reflexivity].
Defined.

(** * Pings and the background task *)

Lemma set_last_ping_idem md now :
  set_last_ping (set_last_ping md now) now = set_last_ping md now.
Proof. done. Qed.


Lemma failed_elem_of up conns c :
  c ∈ failed up conns ↔ up c = false ∧ c ∈ conns.
Proof. unfold failed. by rewrite list_elem_of_filter. Qed.

Lemma failed_nil up conns :
  (∀ c, c ∈ conns → up c = true) → failed up conns = [].
Proof.
  intros Hup. apply elem_of_nil_inv. intros c.
  rewrite failed_elem_of. intros [Hf Hin]. apply Hup in Hin. congruence.
Qed.



Section Pings.
Variable dumps : message → string.
Variable isoformat : time → string.


End Pings.


(** * The sweep when nothing is stale *)

Lemma stale_connections_nil s cutoff :
  (∀ c md, connection_metadata s !! c = Some md → (cutoff ≤ last_ping md)%Z) →
  stale_connections s cutoff = [].
Proof.
  intros Hfresh. apply elem_of_nil_inv. intros c.
  rewrite elem_of_stale_connections. intros (md & Hmd & Hlt).
  apply Hfresh in Hmd. lia.
Qed.

(** X11: when no record is older than the cutoff, the sweep returns the
    registry as it is and closes nothing, in every registry. *)
Theorem cleanup_nothing_stale s now max_age_minutes closes :
  (∀ c md, connection_metadata s !! c = Some md →
           (now - max_age_minutes * 60 ≤ last_ping md)%Z) →
  cleanup_stale_connections s now max_age_minutes closes = Ok (s, []).
Proof.
  intros Hfresh. rewrite cleanup_stale_connections_ok.
  by rewrite stale_connections_nil.
Qed.

Lemma cleanup_nothing_stale_witness :
  (∀ c md, connection_metadata subscribed_pair !! c = Some md →
           (3600 - 60 * 60 ≤ last_ping md)%Z)
  ∧ cleanup_stale_connections subscribed_pair 3600 60 all_down
    = Ok (subscribed_pair, []).
Proof.
  assert (∀ c md, connection_metadata subscribed_pair !! c = Some md →
                  (3600 - 60 * 60 ≤ last_ping md)%Z) as Hfresh.
  { intros c md Hmd.
    assert (c ∈ active_connections subscribed_pair) as Hin.
    { apply (wf_live _ well_formed_subscribed_pair). by rewrite Hmd. }
    assert (active_connections subscribed_pair = [1%nat; 2%nat]) as Hact
      by (vm_compute; reflexivity).
    rewrite Hact, !elem_of_cons, elem_of_nil in Hin.
    destruct Hin as [->|[->|[]]]; vm_compute in Hmd;
      injection Hmd as <-; simpl; lia. }
  split; [done|]. by apply cleanup_nothing_stale.
Defined.

(** * The background task *)


Section Background.
Variable dumps : message → string.
Variable isoformat : time → string.



End Background.


(** * Broadcasts and the registry *)

Section BroadcastState.
Variable dumps : message → string.
Variable isoformat : time → string.

(** X13: [broadcast_to_channel] on a registry that satisfies the
    invariants: afterwards the channel's subscribers are exactly those
    whose send went through; a subscriber whose send failed is gone from
    the live list, every channel and the metadata map; every other
    connection keeps its list entry, record and memberships; and the
    invariants still hold. *)
Theorem broadcast_to_channel_drops_failed s ch msg up :
  well_formed s →
  ∃ s' tr,
    broadcast_to_channel dumps s ch msg up = Ok (s', tr)
    ∧ well_formed s'
    ∧ (∀ c, c ∈ subscribers s' ch ↔ c ∈ subscribers s ch ∧ up c = true)
    ∧ (∀ c, c ∈ subscribers s ch → up c = false → unregistered s' c)
    ∧ (∀ c, ¬ (c ∈ subscribers s ch ∧ up c = false) →
         (c ∈ active_connections s' ↔ c ∈ active_connections s)
         ∧ connection_metadata s' !! c = connection_metadata s !! c
         ∧ ∀ ch', c ∈ subscribers s' ch' ↔ c ∈ subscribers s ch').
Proof.
  intros Hwf. rewrite broadcast_to_channel_ok. eexists _, _. split; [done|].
  split; [by apply foldl_disconnected_well_formed|].
  assert (∀ c, c ∈ failed up (elements (subscribers s ch))
               ↔ c ∈ subscribers s ch ∧ up c = false) as Hfailed.
  { intros c. rewrite failed_elem_of, elem_of_elements. tauto. }
  assert (∀ c, c ∈ subscribers s ch → up c = false →
               unregistered
                 (foldl disconnected s (failed up (elements (subscribers s ch)))) c)
    as Hgone.
  { intros c Hc Hup. apply foldl_disconnected_gone; [done|].
    by apply Hfailed. }
  split; [|split; [done|]].
  - intros c. destruct (up c) eqn:Hup.
    + assert (c ∉ failed up (elements (subscribers s ch))) as Hnf.
      { rewrite Hfailed. intros [_ ?]. congruence. }
      destruct (foldl_disconnected_other _ s c Hnf) as (_ & _ & Hs).
      rewrite Hs. tauto.
    + split; [|by intros [_ ?]]. intros Hin. exfalso.
      destruct (decide (c ∈ subscribers s ch)) as [Hc|Hc].
      * destruct (Hgone c Hc Hup) as (_ & _ & Hnot). by apply (Hnot ch).
      * assert (c ∉ failed up (elements (subscribers s ch))) as Hnf.
        { rewrite Hfailed. tauto. }
        destruct (foldl_disconnected_other _ s c Hnf) as (_ & _ & Hs).
        by apply Hc, Hs.
  - intros c Hc. apply foldl_disconnected_other. by rewrite Hfailed.
Qed.

(** X14: a broadcast only ever changes the registry by dropping
    connections whose send failed: when every addressed connection takes
    the frame, [broadcast] and [broadcast_to_channel] return the registry
    they were given, in every registry. *)
Theorem broadcast_without_failures s ch msg up :
  (∀ c, c ∈ active_connections s ∨ c ∈ subscribers s ch → up c = true) →
  broadcast dumps s msg up
  = Ok (s, (λ c, SendText c (dumps msg) true) <$> active_connections s)
  ∧ broadcast_to_channel dumps s ch msg up
    = Ok (s, (λ c, SendText c (dumps msg) true) <$> elements (subscribers s ch)).
Proof.
  intros Hup. rewrite broadcast_ok, broadcast_to_channel_ok.
  rewrite !failed_nil; cycle 1.
  { intros c Hc. apply Hup. right. by apply elem_of_elements. }
  { intros c Hc. apply Hup. by left. }
  unfold attempts. split; (f_equal; f_equal; apply list_fmap_ext).
  - intros i c Hc. rewrite Hup; [done|]. left. by eapply list_elem_of_lookup_2.
  - intros i c Hc. rewrite Hup; [done|]. right.
    apply elem_of_elements. by eapply list_elem_of_lookup_2.
Qed.

(** X15: each notification helper goes to its own audience: the frames of
    [send_realtime_metrics], [send_data_update] and [send_model_update]
    are addressed to exactly the subscribers of the channels
    realtime_metrics, data_updates and model_updates, while [send_alert]
    addresses every entry of the live list, subscribed or not. *)
Theorem notifications_reach_their_audience s metrics update_type data
    model_name status details alert_type text severity now up :
  (∃ s' tr,
     send_realtime_metrics dumps isoformat s metrics now up = Ok (s', tr)
     ∧ recipient <$> tr = elements (subscribers s "realtime_metrics"))
  ∧ (∃ s' tr,
       send_data_update dumps isoformat s update_type data now up = Ok (s', tr)
       ∧ recipient <$> tr = elements (subscribers s "data_updates"))
  ∧ (∃ s' tr,
       send_model_update dumps isoformat s model_name status details now up
         = Ok (s', tr)
       ∧ recipient <$> tr = elements (subscribers s "model_updates"))
  ∧ (∃ s' tr,
       send_alert dumps isoformat s alert_type text severity now up = Ok (s', tr)
       ∧ recipient <$> tr = active_connections s).
Proof.
  unfold send_realtime_metrics, send_data_update, send_model_update, send_alert.
  rewrite !broadcast_to_channel_ok, broadcast_ok.
  repeat split; eexists _, _; (split; [done|]); apply recipient_attempts.
Qed.

End BroadcastState.

Lemma broadcast_to_channel_drops_failed_witness :
  well_formed subscribed_pair
  ∧ ∃ s' tr,
      broadcast_to_channel no_dumps subscribed_pair "x" [] (λ c, bool_decide (c = 1%nat))
        = Ok (s', tr)
      ∧ well_formed s'
      ∧ (∀ c, c ∈ subscribers s' "x"
              ↔ c ∈ subscribers subscribed_pair "x" ∧ bool_decide (c = 1%nat) = true)
      ∧ (∀ c, c ∈ subscribers subscribed_pair "x" →
              bool_decide (c = 1%nat) = false → unregistered s' c)
      ∧ (∀ c, ¬ (c ∈ subscribers subscribed_pair "x" ∧ bool_decide (c = 1%nat) = false) →
           (c ∈ active_connections s' ↔ c ∈ active_connections subscribed_pair)
           ∧ connection_metadata s' !! c = connection_metadata subscribed_pair !! c
           ∧ ∀ ch', c ∈ subscribers s' ch' ↔ c ∈ subscribers subscribed_pair ch').
Proof.
  split; [apply well_formed_subscribed_pair|].
  apply (broadcast_to_channel_drops_failed no_dumps subscribed_pair "x" []
           (λ c, bool_decide (c = 1%nat))).
  apply well_formed_subscribed_pair.
Defined.

Lemma broadcast_without_failures_witness :
  (∀ c, c ∈ active_connections subscribed_pair ∨ c ∈ subscribers subscribed_pair "x" →
        all_up c = true)
  ∧ broadcast no_dumps subscribed_pair [] all_up
    = Ok (subscribed_pair,
          (λ c, SendText c (no_dumps []) true) <$> active_connections subscribed_pair)
  ∧ broadcast_to_channel no_dumps subscribed_pair "x" [] all_up
    = Ok (subscribed_pair,
          (λ c, SendText c (no_dumps []) true)
            <$> elements (subscribers subscribed_pair "x")).
Proof.
  split; [done|]. by apply broadcast_without_failures.
Defined.

(** * Statistics of a consistent registry *)

Lemma well_formed_live_count s :
  well_formed s → length (active_connections s) = size (connection_metadata s).
Proof.
  intros Hwf.
  rewrite <-(size_dom (D := gset conn)),
          <-(size_list_to_set (C := gset conn)) by apply Hwf.
  f_equal. apply set_eq. intros c.
  by rewrite elem_of_list_to_set, elem_of_dom, (wf_live s Hwf).
Qed.

Section StatsConsistency.
Variable dumps : message → string.
Variable isoformat : time → string.

(** X16: on a registry that satisfies the invariants the snapshot is
    consistent: the number of live connections equals the number of
    detail entries, a channel is listed exactly when it has a subscriber,
    and its count is the size of its subscriber set, never zero. *)
Theorem stats_consistent s :
  well_formed s →
  ∃ st,
    get_connection_stats isoformat s = Ok (st, s)
    ∧ total_connections st = length (connection_details st)
    ∧ (∀ ch n, channels st !! ch = Some n →
               (1 ≤ n)%nat ∧ n = size (subscribers s ch))
    ∧ (∀ ch, channels st !! ch = None ↔ subscribers s ch = ∅).
Proof.
  intros Hwf. eexists. split; [reflexivity|]. simpl. split; [|split].
  - rewrite !length_fmap, length_map_to_list. by apply well_formed_live_count.
  - intros ch n. rewrite lookup_fmap. unfold subscribers.
    pose proof (wf_no_empty s Hwf ch) as Hne.
    destruct (subscriptions s !! ch) as [members|]; simpl; [|done].
    intros [= <-]. split; [|done].
    assert (size members ≠ 0%nat); [|lia].
    rewrite size_non_empty_iff. intros Hempty%leibniz_equiv. congruence.
  - intros ch. rewrite lookup_fmap. unfold subscribers.
    pose proof (wf_no_empty s Hwf ch) as Hne.
    destruct (subscriptions s !! ch) as [members|]; simpl; [|done].
    split; [done|]. intros ->. done.
Qed.

End StatsConsistency.

Lemma stats_consistent_witness :
  well_formed subscribed_pair
  ∧ ∃ st,
      get_connection_stats no_isoformat subscribed_pair = Ok (st, subscribed_pair)
      ∧ total_connections st = length (connection_details st)
      ∧ (∀ ch n, channels st !! ch = Some n →
                 (1 ≤ n)%nat ∧ n = size (subscribers subscribed_pair ch))
      ∧ (∀ ch, channels st !! ch = None ↔ subscribers subscribed_pair ch = ∅).
Proof.
  split; [apply well_formed_subscribed_pair|].
  apply stats_consistent, well_formed_subscribed_pair.
Defined.

(** * How the calls show in the statistics *)

Section CallsAndStats.
Variable dumps : message → string.
Variable isoformat : time → string.

(** X17: a [connect] of a handle without a record, whose welcome goes
    out, shows in the next snapshot as one more live connection and one
    more detail entry, that of a connection without subscriptions whose
    connect time and last ping are the first and the second clock reading
    of the call; the welcome frame carries the third; the channel counts
    are as before. *)
Theorem connect_then_stats s ws t1 t2 t3 up :
  connection_metadata s !! ws = None → up ws = true →
  ∃ s' st,
    connect dumps isoformat s ws t1 t2 t3 true up
      = Ok (s', [Accept ws; SendText ws (dumps (welcome isoformat t3)) true])
    ∧ get_connection_stats isoformat s' = Ok (st, s')
    ∧ total_connections st = S (length (active_connections s))
    ∧ length (connection_details st) = S (size (connection_metadata s))
    ∧ {| d_connected_at := isoformat t1;
         d_subscriptions := [];
         d_last_ping := isoformat t2 |} ∈ connection_details st
    ∧ channels st = size <$> subscriptions s.
Proof.
  intros Hnone Hup. rewrite connect_ok. unfold delivered. rewrite Hup.
  eexists _, _. split; [done|]. split; [reflexivity|]. simpl.
  split; [|split; [|split; [|done]]].
  - rewrite length_app. simpl. lia.
  - rewrite !length_fmap, length_map_to_list. by apply map_size_insert_None.
  - apply list_elem_of_fmap.
    exists {| connected_at := t1; md_subscriptions := ∅; last_ping := t2 |}.
    split; [cbv beta; cbn [md_subscriptions connected_at last_ping]; by rewrite elements_empty|].
    apply list_elem_of_fmap. eexists (ws, _). split; [done|].
    apply elem_of_map_to_list, lookup_insert_eq.
Qed.

(** X18: a [subscribe] of a connection that is not yet among the
    channel's subscribers, whose confirmation goes out, raises that
    channel's count in the next snapshot by one (to one for a new
    channel) and leaves the other counts alone. *)
Theorem subscribe_then_stats s ws ch now up :
  ws ∉ subscribers s ch → up ws = true →
  ∃ s' tr st,
    subscribe dumps isoformat s ws ch now up = Ok (s', tr)
    ∧ get_connection_stats isoformat s' = Ok (st, s')
    ∧ channels st !! ch = Some (S (size (subscribers s ch)))
    ∧ ∀ ch', ch' ≠ ch → channels st !! ch' = size <$> subscriptions s !! ch'.
Proof.
  intros Hws Hup. rewrite subscribe_ok. unfold delivered. rewrite Hup.
  eexists _, _, _. split; [done|]. split; [reflexivity|]. simpl. split.
  - rewrite lookup_fmap, lookup_insert_eq. simpl. f_equal.
    rewrite size_union by set_solver. rewrite size_singleton. lia.
  - intros ch' Hne. by rewrite lookup_fmap, lookup_insert_ne.
Qed.

(** X19: an [unsubscribe] of a subscriber, whose confirmation goes out,
    lowers that channel's count in the next snapshot by one, and removes
    the channel from the snapshot when it was the last subscriber; the
    other counts stay. *)
Theorem unsubscribe_then_stats s ws ch now up :
  ws ∈ subscribers s ch → up ws = true →
  ∃ s' tr st,
    unsubscribe dumps isoformat s ws ch now up = Ok (s', tr)
    ∧ get_connection_stats isoformat s' = Ok (st, s')
    ∧ channels st !! ch
      = (if decide (size (subscribers s ch) = 1%nat) then None
         else Some (size (subscribers s ch) - 1)%nat)
    ∧ ∀ ch', ch' ≠ ch → channels st !! ch' = size <$> subscriptions s !! ch'.
Proof.
  intros Hws Hup. rewrite unsubscribe_ok. unfold delivered. rewrite Hup.
  eexists _, _, _. split; [done|]. split; [reflexivity|]. simpl. split.
  - rewrite lookup_fmap, lookup_discarded, decide_True by done.
    unfold subscribers in *.
    destruct (subscriptions s !! ch) as [members|]; simpl in *; [|set_solver].
    assert (size (members ∖ {[ws]}) = (size members - 1)%nat) as Hsize.
    { rewrite size_difference by set_solver. by rewrite size_singleton. }
    assert (size members ≠ 0%nat) as Hpos.
    { rewrite size_non_empty_iff. set_solver. }
    destruct (decide (members ∖ {[ws]} = ∅)) as [Hempty|Hnon].
    + rewrite Hempty, size_empty in Hsize. simpl.
      rewrite decide_True; [done | lia].
    + simpl. rewrite Hsize, decide_False; [done|].
      intros Hone. apply Hnon. apply leibniz_equiv, size_empty_iff. lia.
  - intros ch' Hne. by rewrite lookup_fmap, lookup_discarded, decide_False.
Qed.

End CallsAndStats.

Lemma connect_then_stats_witness :
  connection_metadata subscribed_pair !! 3%nat = None ∧ all_up 3%nat = true
  ∧ ∃ s' st,
      connect no_dumps no_isoformat subscribed_pair 3%nat 20 21 22 true all_up
        = Ok (s', [Accept 3%nat;
                   SendText 3%nat (no_dumps (welcome no_isoformat 22)) true])
      ∧ get_connection_stats no_isoformat s' = Ok (st, s')
      ∧ total_connections st = S (length (active_connections subscribed_pair))
      ∧ length (connection_details st) = S (size (connection_metadata subscribed_pair))
      ∧ {| d_connected_at := no_isoformat 20;
           d_subscriptions := [];
           d_last_ping := no_isoformat 21 |} ∈ connection_details st
      ∧ channels st = size <$> subscriptions subscribed_pair.
Proof.
  split; [vm_compute; reflexivity|]. split; [reflexivity|].
  apply connect_then_stats; [vm_compute; reflexivity | reflexivity].
Defined.

Lemma subscribe_then_stats_witness :
  (2%nat ∉ subscribers subscribed_pair "y") ∧ all_up 2%nat = true
  ∧ ∃ s' tr st,
      subscribe no_dumps no_isoformat subscribed_pair 2%nat "y" 20 all_up
        = Ok (s', tr)
      ∧ get_connection_stats no_isoformat s' = Ok (st, s')
      ∧ channels st !! "y" = Some (S (size (subscribers subscribed_pair "y")))
      ∧ ∀ ch', ch' ≠ "y" →
               channels st !! ch' = size <$> subscriptions subscribed_pair !! ch'.
Proof.
  assert (2%nat ∉ subscribers subscribed_pair "y") as Hnot.
  { apply (bool_decide_unpack _). vm_compute. exact I. }
  split; [done|]. split; [reflexivity|].
  apply subscribe_then_stats; [done | reflexivity].
Defined.

Lemma unsubscribe_then_stats_witness :
  1%nat ∈ subscribers subscribed_pair "y" ∧ all_up 1%nat = true
  ∧ ∃ s' tr st,
      unsubscribe no_dumps no_isoformat subscribed_pair 1%nat "y" 20 all_up
        = Ok (s', tr)
      ∧ get_connection_stats no_isoformat s' = Ok (st, s')
      ∧ channels st !! "y"
        = (if decide (size (subscribers subscribed_pair "y") = 1%nat) then None
           else Some (size (subscribers subscribed_pair "y") - 1)%nat)
      ∧ ∀ ch', ch' ≠ "y" →
               channels st !! ch' = size <$> subscriptions subscribed_pair !! ch'.
Proof.
  assert (1%nat ∈ subscribers subscribed_pair "y") as Hin.
  { apply (bool_decide_unpack _). vm_compute. exact I. }
  split; [done|]. split; [reflexivity|].
  apply unsubscribe_then_stats; [done | reflexivity].
Defined.

(** * A confirmation that cannot be sent *)

Section FailedConfirmation.
Variable dumps : message → string.
Variable isoformat : time → string.

(** X20: a [subscribe] or [unsubscribe] whose confirmation cannot be sent
    amounts to a [disconnect]: for a connection with a record in a
    registry that satisfies the invariants, the call returns, and the
    registry it leaves is the one a plain [disconnect] leaves; the
    subscription just made does not survive, and the connection is gone
    from the live list, every channel and the metadata map. *)
Theorem failed_confirmation_disconnects s ws ch now up :
  well_formed s → is_Some (connection_metadata s !! ws) → up ws = false →
  ∃ s' tr1 tr2,
    disconnect s ws = Ok s'
    ∧ subscribe dumps isoformat s ws ch now up = Ok (s', tr1)
    ∧ unsubscribe dumps isoformat s ws ch now up = Ok (s', tr2)
    ∧ unregistered s' ws.
Proof.
  intros Hwf Hsome Hup. exists (disconnected s ws). eexists _, _.
  rewrite disconnect_ok, subscribe_ok, unsubscribe_ok.
  unfold delivered. rewrite Hup.
  assert (well_formed (disconnected s ws)) as Hwfd
    by by apply disconnected_well_formed.
  split; [done|]. split; [|split].
  - f_equal. f_equal.
    apply well_formed_ext;
      [by apply disconnected_well_formed, subscribed_well_formed | done | done |].
    apply map_eq. intros c. rewrite !metadata_disconnected.
    case_decide as Heq; [done|]. by rewrite metadata_subscribed, decide_False.
  - f_equal. f_equal.
    apply well_formed_ext;
      [by apply disconnected_well_formed, unsubscribed_well_formed | done | done |].
    apply map_eq. intros c. rewrite !metadata_disconnected.
    case_decide as Heq; [done|]. by rewrite metadata_unsubscribed, decide_False.
  - split; [apply NoDup_remove_first, Hwf|]. split.
    + by rewrite metadata_disconnected, decide_True.
    + intros ch'. apply disconnected_purged, Hwf.
Qed.

End FailedConfirmation.

Lemma failed_confirmation_disconnects_witness :
  well_formed subscribed_pair
  ∧ is_Some (connection_metadata subscribed_pair !! 2%nat)
  ∧ all_down 2%nat = false
  ∧ ∃ s' tr1 tr2,
      disconnect subscribed_pair 2%nat = Ok s'
      ∧ subscribe no_dumps no_isoformat subscribed_pair 2%nat "z" 30 all_down
        = Ok (s', tr1)
      ∧ unsubscribe no_dumps no_isoformat subscribed_pair 2%nat "z" 30 all_down
        = Ok (s', tr2)
      ∧ unregistered s' 2%nat.
Proof.
  assert (is_Some (connection_metadata subscribed_pair !! 2%nat)) as Hsome.
  { apply (bool_decide_unpack _). vm_compute. exact I. }
  split; [apply well_formed_subscribed_pair|]. split; [done|].
  split; [reflexivity|].
  apply failed_confirmation_disconnects;
    [apply well_formed_subscribed_pair | done | reflexivity].
Defined.
